(** * KoxiTalk: the WebSocket connection and room manager

    A shallow embedding of [backend/app/core/websocket_manager.py]
    ([ConnectionManager], [WebSocketManager]), of the WebSocket endpoint of
    [backend/app/main.py] and of the [send_message] route of
    [backend/app/api/routes/messages.py], with the properties of the
    connection and room-membership manager stated over it.

    Conventions of the embedding:
    - user, chat and message identifiers are Python [int]s: [Z];
    - a [WebSocket] object is an opaque handle compared by identity: [nat];
    - [Dict[int, List[WebSocket]]] is a [gmap Z (list nat)], and
      [Dict[int, Set[int]]] a [gmap Z (gset Z)]; the order in which Python
      iterates over a set or over the keys of a dict is not modelled: a loop
      over a set runs in the order of [elements], a loop over the keys of a
      dict in the order of [elements (dom _)];
    - coroutines run to completion one after the other (no interleaving at
      [await]): a computation is a function from the manager's state to an
      outcome (a value or a raised exception), the state it leaves and the
      list of effects it performed, in order;
    - whether a write on a connection succeeds is given by [send_ok];
    - the ["timestamp"] entry of outbound messages (the wall clock) is left
      out of the payloads. *)

From stdpp Require Import gmap strings list fin_maps.

Set Warnings "-clear-no-such-hyp".

Open Scope string_scope.
Open Scope list_scope.
Open Scope Z_scope.

(** ** Outbound messages *)

(** The dictionaries built by the manager and by the endpoint, one
    constructor per shape. *)
Inductive message : Type :=
  | Typing (chat_id user_id : Z) (is_typing : bool)
  | UserStatus (user_id : Z) (status : string)
  | NewMessage (chat_id sender_id : Z) (content : string)
  | MessageRead (message_id chat_id reader_id : Z)
  | PlainText (content : string) (sender_id : Z).

(** The value of the ["type"] entry of a message. *)
Definition msg_type (m : message) : string :=
  match m with
  | Typing _ _ _ => "typing"
  | UserStatus _ _ => "user_status"
  | NewMessage _ _ _ => "new_message"
  | MessageRead _ _ _ => "message_read"
  | PlainText _ _ => "message"
  end.

(** ** The database rows used by the [send_message] route *)

Record ChatMember : Type := {
  member_chat_id : Z;
  member_user_id : Z;
  is_active : bool;
  can_send_messages : bool
}.

Record Message : Type := {
  id : Z;
  message_chat_id : Z;
  sender_id : Z;
  message_content : string;
  message_reply_to : option Z;
  is_deleted : bool;
  created_at : Z
}.

Record Chat : Type := {
  chat_pk : Z;
  last_message_at : option Z
}.

(** ** Effects and exceptions *)

Inductive effect : Type :=
  | Accept (ws : nat)
  | SendText (ws : nat) (m : message) (ok : bool)
  | RedisStatus (user_id : Z) (is_online : bool)
  | DbCommit (row : Message).

Inductive exn : Type :=
  | ValueError
  | KeyError
  | AttributeError
  | SendFailed
  | WebSocketDisconnect
  | HTTPException (status_code : Z)
  | SQLAlchemyError.

Inductive outcome (A : Type) : Type :=
  | Return (a : A)
  | Raise (e : exn).
Arguments Return {A} a.
Arguments Raise {A} e.

(** ** Computations over a state [S] *)

Definition M (S A : Type) : Type := S → outcome A * S * list effect.

Definition ret {S A} (a : A) : M S A := λ s, (Return a, s, []).

Definition bind {S A B} (m : M S A) (f : A → M S B) : M S B := λ s,
  match m s with
  | (Return a, s1, t1) =>
      match f a s1 with
      | (o, s2, t2) => (o, s2, t1 ++ t2)
      end
  | (Raise e, s1, t1) => (Raise e, s1, t1)
  end.

Definition get {S} : M S S := λ s, (Return s, s, []).
Definition put {S} (s' : S) : M S unit := λ _, (Return (), s', []).
Definition modify {S} (f : S → S) : M S unit := λ s, (Return (), f s, []).
Definition emit {S} (e : effect) : M S unit := λ s, (Return (), s, [e]).
Definition raise {S A} (e : exn) : M S A := λ s, (Raise e, s, []).

(** [try: m except Exception: h]. *)
Definition catch {S A} (m : M S A) (h : exn → M S A) : M S A := λ s,
  match m s with
  | (Return a, s1, t1) => (Return a, s1, t1)
  | (Raise e, s1, t1) =>
      match h e s1 with
      | (o, s2, t2) => (o, s2, t1 ++ t2)
      end
  end.

Declare Scope py_scope.
Delimit Scope py_scope with py.
Notation "'let!' x ':=' m 'in' k" := (bind m (λ x, k))
  (at level 10, x name, m at level 100, k at level 200) : py_scope.
Notation "m '>>' k" := (bind m (λ _, k))
  (at level 90, right associativity) : py_scope.
Open Scope py_scope.

(** [for x in l: body x]. *)
Fixpoint for_each {S A} (l : list A) (body : A → M S unit) : M S unit :=
  match l with
  | [] => ret ()
  | x :: l' => body x >> for_each l' body
  end.

(** Python truthiness of an optional [int] and of an optional [str]:
    [None], [0] and the empty string are falsy. *)
Definition truthy_int (o : option Z) : option Z :=
  match o with
  | Some z => if decide (z = 0) then None else Some z
  | None => None
  end.

Definition truthy_str (o : option string) : option string :=
  match o with
  | Some s => if decide (s = "") then None else Some s
  | None => None
  end.

(** [l.remove(x)]: drops the first occurrence, [ValueError] when there is
    none. *)
Fixpoint list_remove (x : nat) (l : list nat) : option (list nat) :=
  match l with
  | [] => None
  | y :: l' => if decide (x = y) then Some l' else cons y <$> list_remove x l'
  end.

(** ** The [send_message] route of [app/api/routes/messages.py] *)

Module Messages.

Record Db : Type := {
  chat_members : list ChatMember;
  messages : list Message;
  chats : list Chat
}.

(** The request body; [message_type] and [file_id] are copied into the row
    and take no part in any decision, they are left out. *)
Record MessageCreate : Type := {
  content : string;
  chat_id : Z;
  reply_to_message_id : option Z
}.

(** The filter of the membership query. *)
Definition may_send (chat user : Z) (row : ChatMember) : bool :=
  bool_decide (member_chat_id row = chat) &&
  bool_decide (member_user_id row = user) &&
  is_active row && can_send_messages row.

(** The filter of the reply-target query. *)
Definition is_reply_target (reply chat : Z) (row : Message) : bool :=
  bool_decide (id row = reply) &&
  bool_decide (message_chat_id row = chat) &&
  negb (is_deleted row).

(** [chat.last_message_at = new_message.created_at] on the first chat with
    the given key. *)
Fixpoint touch_chat (chat now : Z) (l : list Chat) : list Chat :=
  match l with
  | [] => []
  | c :: l' =>
      if decide (chat_pk c = chat)
      then {| chat_pk := chat_pk c; last_message_at := Some now |} :: l'
      else c :: touch_chat chat now l'
  end.

Section Route.

(** What the database supplies: the key and the timestamp of the new row,
    and whether each of the two [db.commit()] calls succeeds. *)
Variables (new_id now : Z) (commit_ok touch_ok : bool).

Definition send_message (message_data : MessageCreate) (current_user : Z)
    : M Db Message :=
  let! db := get in
  match find (may_send (chat_id message_data) current_user) (chat_members db) with
  | None => raise (HTTPException 403)
  | Some _ =>
      match truthy_int (reply_to_message_id message_data) with
      | Some reply =>
          match find (is_reply_target reply (chat_id message_data)) (messages db) with
          | None => raise (HTTPException 404)
          | Some _ => ret ()
          end
      | None => ret ()
      end >>
      let new_message :=
        {| id := new_id;
           message_chat_id := chat_id message_data;
           sender_id := current_user;
           message_content := content message_data;
           message_reply_to := reply_to_message_id message_data;
           is_deleted := false;
           created_at := now |} in
      (if commit_ok
       then modify (λ db, {| chat_members := chat_members db;
                             messages := messages db ++ [new_message];
                             chats := chats db |}) >>
            emit (DbCommit new_message)
       else raise SQLAlchemyError) >>
      (let! db := get in
       if bool_decide (Exists (λ c, chat_pk c = chat_id message_data) (chats db))
       then if touch_ok
            then modify (λ db, {| chat_members := chat_members db;
                                  messages := messages db;
                                  chats := touch_chat (chat_id message_data) now
                                             (chats db) |})
            else raise SQLAlchemyError
       else ret ()) >>
      ret new_message
  end.

End Route.

(** Whether the membership table lets [user] post to [chat]. *)
Definition authorized (db : Db) (user chat : Z) : bool :=
  bool_decide (is_Some (find (may_send chat user) (chat_members db))).

End Messages.

(** The row [send_message] builds. *)
Definition new_row (new_id now : Z) (message_data : Messages.MessageCreate)
    (current_user : Z) : Message :=
  {| id := new_id;
     message_chat_id := Messages.chat_id message_data;
     sender_id := current_user;
     message_content := Messages.content message_data;
     message_reply_to := Messages.reply_to_message_id message_data;
     is_deleted := false;
     created_at := now |}.

(** The reply target of a request passes the check of [send_message]: there
    is none (or it is 0), or some message of the same chat that is not
    deleted has that key. *)
Definition reply_accepted (db : Messages.Db)
    (message_data : Messages.MessageCreate) : Prop :=
  truthy_int (Messages.reply_to_message_id message_data) = None ∨
  ∃ reply target,
    truthy_int (Messages.reply_to_message_id message_data) = Some reply ∧
    target ∈ Messages.messages db ∧
    Messages.is_reply_target reply (Messages.chat_id message_data) target = true.

(** The database after [send_message] stored [row]. *)
Definition with_message (db : Messages.Db) (row : Message) : Messages.Db :=
  {| Messages.chat_members := Messages.chat_members db;
     Messages.messages := Messages.messages db ++ [row];
     Messages.chats := Messages.chats db |}.

(** A request of user 2 for chat 5 that replies to message [reply]. *)
Definition post_in_5 (reply : option Z) : Messages.MessageCreate :=
  {| Messages.content := "hello"; Messages.chat_id := 5;
     Messages.reply_to_message_id := reply |}.

(** ** The other message routes of [app/api/routes/messages.py]

    [edit_message], [delete_message], [add_reaction], [remove_reaction] and
    [get_message_reactions], over the columns they read or write. A query
    ending in [.first()] gives the first row of the table that passes its
    filter. The state of a run is the database; a commit that fails leaves
    it as it was. *)

(** The first element that passes [p], changed by [f]: a column update on
    the object a query returned. *)
Fixpoint update_first {A} (p : A → bool) (f : A → A) (l : list A) : list A :=
  match l with
  | [] => []
  | x :: l' => if p x then f x :: l' else x :: update_first p f l'
  end.

(** [db.delete] of the object a query returned. *)
Fixpoint remove_first {A} (p : A → bool) (l : list A) : list A :=
  match l with
  | [] => []
  | x :: l' => if p x then l' else x :: remove_first p l'
  end.

Module MessageOps.

Record MessageRow : Type := {
  id : Z;
  chat_id : Z;
  sender_id : Z;
  content : option string;
  is_edited : bool;
  is_deleted : bool;
  edited_at : option Z;
  deleted_at : option Z
}.

Record MemberRow : Type := {
  member_chat_id : Z;
  member_user_id : Z;
  is_active : bool;
  can_delete_messages : bool
}.

Record ReactionRow : Type := {
  reaction_id : Z;
  message_id : Z;
  user_id : Z;
  reaction : string
}.

Record Db : Type := {
  messages : list MessageRow;
  chat_members : list MemberRow;
  reactions : list ReactionRow
}.

(** The filter of [edit_message]: the message, sent by the user, not
    deleted. *)
Definition owned_by (key user : Z) (m : MessageRow) : bool :=
  bool_decide (id m = key) && bool_decide (sender_id m = user) &&
  negb (is_deleted m).

(** The filter of the other routes: the message, not deleted. *)
Definition visible (key : Z) (m : MessageRow) : bool :=
  bool_decide (id m = key) && negb (is_deleted m).

(** The membership filter of [delete_message]. *)
Definition may_delete (chat user : Z) (row : MemberRow) : bool :=
  bool_decide (member_chat_id row = chat) &&
  bool_decide (member_user_id row = user) && can_delete_messages row.

(** The membership filter of the reaction routes. *)
Definition active_member (chat user : Z) (row : MemberRow) : bool :=
  bool_decide (member_chat_id row = chat) &&
  bool_decide (member_user_id row = user) && is_active row.

(** The filter of the toggle in [add_reaction]. *)
Definition same_reaction (key user : Z) (emoji : string) (r : ReactionRow)
    : bool :=
  bool_decide (message_id r = key) && bool_decide (user_id r = user) &&
  bool_decide (reaction r = emoji).

(** The filter of [remove_reaction]. *)
Definition own_reaction (rid key user : Z) (r : ReactionRow) : bool :=
  bool_decide (reaction_id r = rid) && bool_decide (message_id r = key) &&
  bool_decide (user_id r = user).

Definition edited (new_content : string) (now : Z) (m : MessageRow)
    : MessageRow :=
  {| id := id m; chat_id := chat_id m; sender_id := sender_id m;
     content := Some new_content; is_edited := true;
     is_deleted := is_deleted m;
     edited_at := Some now; deleted_at := deleted_at m |}.

Definition soft_deleted (now : Z) (m : MessageRow) : MessageRow :=
  {| id := id m; chat_id := chat_id m; sender_id := sender_id m;
     content := content m; is_edited := is_edited m;
     is_deleted := true;
     edited_at := edited_at m; deleted_at := Some now |}.

Definition set_messages (f : list MessageRow → list MessageRow) (db : Db)
    : Db :=
  {| messages := f (messages db); chat_members := chat_members db;
     reactions := reactions db |}.

Definition set_reactions (f : list ReactionRow → list ReactionRow) (db : Db)
    : Db :=
  {| messages := messages db; chat_members := chat_members db;
     reactions := f (reactions db) |}.

(** What [add_reaction] answers. *)
Inductive toggled : Type :=
  | ReactionRemoved
  | ReactionAdded (key : Z) (emoji : string).

Section Routes.

(** What the database supplies: the value of [SELECT NOW()] ([None] when
    the statement raises), whether [db.commit()] succeeds, and the key of a
    new reaction. *)
Variables (select_now : option Z) (commit_ok : bool) (new_id : Z).

Definition edit_message (key : Z) (new_content : string) (current_user : Z)
    : M Db unit :=
  let! db := get in
  match find (owned_by key current_user) (messages db) with
  | None => raise (HTTPException 404)
  | Some _ =>
      match select_now with
      | None => raise SQLAlchemyError
      | Some now =>
          if commit_ok
          then put (set_messages
                      (update_first (owned_by key current_user)
                                    (edited new_content now)) db)
          else raise SQLAlchemyError
      end
  end.

Definition delete_message (key : Z) (current_user : Z) : M Db unit :=
  let! db := get in
  match find (visible key) (messages db) with
  | None => raise (HTTPException 404)
  | Some message =>
      let can_delete :=
        if decide (sender_id message = current_user) then true
        else bool_decide (is_Some (find (may_delete (chat_id message)
                                                    current_user)
                                        (chat_members db))) in
      if can_delete then
        match select_now with
        | None => raise SQLAlchemyError
        | Some now =>
            if commit_ok
            then put (set_messages
                        (update_first (visible key) (soft_deleted now)) db)
            else raise SQLAlchemyError
        end
      else raise (HTTPException 403)
  end.

Definition add_reaction (key : Z) (emoji : string) (current_user : Z)
    : M Db toggled :=
  let! db := get in
  match find (visible key) (messages db) with
  | None => raise (HTTPException 404)
  | Some message =>
      match find (active_member (chat_id message) current_user)
                 (chat_members db) with
      | None => raise (HTTPException 403)
      | Some _ =>
          match find (same_reaction key current_user emoji) (reactions db) with
          | Some _ =>
              if commit_ok
              then put (set_reactions
                          (remove_first (same_reaction key current_user emoji))
                          db) >>
                   ret ReactionRemoved
              else raise SQLAlchemyError
          | None =>
              if commit_ok
              then put (set_reactions
                          (λ l, l ++ [{| reaction_id := new_id;
                                         message_id := key;
                                         user_id := current_user;
                                         reaction := emoji |}]) db) >>
                   ret (ReactionAdded new_id emoji)
              else raise SQLAlchemyError
          end
      end
  end.

Definition remove_reaction (key rid : Z) (current_user : Z) : M Db unit :=
  let! db := get in
  match find (own_reaction rid key current_user) (reactions db) with
  | None => raise (HTTPException 404)
  | Some _ =>
      if commit_ok
      then put (set_reactions (remove_first (own_reaction rid key current_user))
                              db)
      else raise SQLAlchemyError
  end.

Definition get_message_reactions (key : Z) (current_user : Z)
    : M Db (list ReactionRow) :=
  let! db := get in
  match find (visible key) (messages db) with
  | None => raise (HTTPException 404)
  | Some message =>
      match find (active_member (chat_id message) current_user)
                 (chat_members db) with
      | None => raise (HTTPException 403)
      | Some _ =>
          ret (List.filter (λ r, bool_decide (message_id r = key))
                           (reactions db))
      end
  end.

End Routes.

(** The keys of the messages, and of the reactions, are primary keys. *)
Definition unique_keys (db : Db) : Prop :=
  NoDup (id <$> messages db) ∧ NoDup (reaction_id <$> reactions db).

(** Message 1 of chat 5, sent by user 2. *)
Definition sample_message : MessageRow :=
  {| id := 1; chat_id := 5; sender_id := 2; content := Some "hello";
     is_edited := false; is_deleted := false;
     edited_at := None; deleted_at := None |}.

(** User 2, an active member of chat 5 without the right to delete. *)
Definition sample_member : MemberRow :=
  {| member_chat_id := 5; member_user_id := 2; is_active := true;
     can_delete_messages := false |}.

(** User 3, who left chat 5 but kept the right to delete. *)
Definition sample_moderator : MemberRow :=
  {| member_chat_id := 5; member_user_id := 3; is_active := false;
     can_delete_messages := true |}.

(** The reaction of user 2 to message 1. *)
Definition sample_reaction : ReactionRow :=
  {| reaction_id := 40; message_id := 1; user_id := 2; reaction := "+1" |}.

Definition sample : Db :=
  {| messages := [sample_message];
     chat_members := [sample_member; sample_moderator];
     reactions := [sample_reaction] |}.

(** The same database once message 1 is deleted, at time 900. *)
Definition sample_deleted : Db :=
  {| messages := [soft_deleted 900 sample_message];
     chat_members := [sample_member; sample_moderator];
     reactions := [sample_reaction] |}.

End MessageOps.

(** ** ConnectionManager *)

Record ConnectionManager : Type := {
  active_connections : gmap Z (list nat);
  chat_rooms : gmap Z (gset Z);
  typing_users : gmap Z (gset Z);
  redis : bool
}.

(** [ConnectionManager.__init__]. *)
Definition init (redis_client : bool) : ConnectionManager :=
  {| active_connections := ∅; chat_rooms := ∅; typing_users := ∅;
     redis := redis_client |}.

Definition set_active (f : gmap Z (list nat) → gmap Z (list nat))
    (s : ConnectionManager) : ConnectionManager :=
  {| active_connections := f (active_connections s);
     chat_rooms := chat_rooms s;
     typing_users := typing_users s;
     redis := redis s |}.

Definition set_rooms (f : gmap Z (gset Z) → gmap Z (gset Z))
    (s : ConnectionManager) : ConnectionManager :=
  {| active_connections := active_connections s;
     chat_rooms := f (chat_rooms s);
     typing_users := typing_users s;
     redis := redis s |}.

Definition set_typing (f : gmap Z (gset Z) → gmap Z (gset Z))
    (s : ConnectionManager) : ConnectionManager :=
  {| active_connections := active_connections s;
     chat_rooms := chat_rooms s;
     typing_users := f (typing_users s);
     redis := redis s |}.

(** The live connections of a user, the users present in a room and the
    users typing in a room; a missing key reads as empty. *)
Definition live (s : ConnectionManager) (user_id : Z) : list nat :=
  default [] (active_connections s !! user_id).

Definition present (s : ConnectionManager) (chat_id : Z) : gset Z :=
  default ∅ (chat_rooms s !! chat_id).

Definition typing (s : ConnectionManager) (chat_id : Z) : gset Z :=
  default ∅ (typing_users s !! chat_id).

Abbreviation CM := (M ConnectionManager).

Section Manager.

(** Whether [send_text] on a connection succeeds. *)
Variable send_ok : nat → bool.

(** [await connection.send_text(json.dumps(message))]. *)
Definition send_text (ws : nat) (m : message) : CM unit :=
  emit (SendText ws m (send_ok ws)) >>
  if send_ok ws then ret () else raise SendFailed.

(** The first loop of [send_personal_message]: every connection is written
    to, the ones whose write raises are collected. *)
Fixpoint send_all (conns : list nat) (m : message) : CM (list nat) :=
  match conns with
  | [] => ret []
  | connection :: rest =>
      let! failed := catch (send_text connection m >> ret false)
                           (λ _, ret true) in
      let! disconnected_connections := send_all rest m in
      ret (if failed : bool then connection :: disconnected_connections
           else disconnected_connections)
  end.

(** [self.active_connections[user_id].remove(connection)]. *)
Definition remove_connection (user_id : Z) (connection : nat) : CM unit :=
  let! s := get in
  match active_connections s !! user_id with
  | None => raise KeyError
  | Some conns =>
      match list_remove connection conns with
      | None => raise ValueError
      | Some conns' => put (set_active (insert user_id conns') s)
      end
  end.

Definition send_personal_message (user_id : Z) (m : message) : CM unit :=
  let! s := get in
  match active_connections s !! user_id with
  | None => ret ()
  | Some conns =>
      let! disconnected_connections := send_all conns m in
      for_each disconnected_connections (remove_connection user_id)
  end.

(** [if exclude_user_id and user_id == exclude_user_id]. *)
Definition excluded (exclude_user_id : option Z) (user_id : Z) : bool :=
  match truthy_int exclude_user_id with
  | Some e => bool_decide (user_id = e)
  | None => false
  end.

Definition broadcast_to_chat (chat_id : Z) (m : message)
    (exclude_user_id : option Z) : CM unit :=
  let! s := get in
  match chat_rooms s !! chat_id with
  | None => ret ()
  | Some members =>
      for_each (elements members) (λ user_id,
        if excluded exclude_user_id user_id then ret ()
        else send_personal_message user_id m)
  end.

Definition broadcast_typing_status (chat_id user_id : Z) (is_typing : bool)
    : CM unit :=
  broadcast_to_chat chat_id (Typing chat_id user_id is_typing) (Some user_id).

Definition set_typing_status (chat_id user_id : Z) (is_typing : bool)
    : CM unit :=
  modify (λ s, match typing_users s !! chat_id with
               | None => set_typing (insert chat_id ∅) s
               | Some _ => s
               end) >>
  modify (set_typing (alter (λ users, if is_typing then {[user_id]} ∪ users
                                      else users ∖ {[user_id]}) chat_id)) >>
  broadcast_typing_status chat_id user_id is_typing.

Definition set_user_online (user_id : Z) (is_online : bool) : CM unit :=
  let! s := get in
  if redis s then emit (RedisStatus user_id is_online) else ret ().

Definition broadcast_user_status (user_id : Z) (status : string) : CM unit :=
  let! s := get in
  for_each (elements (dom (active_connections s))) (λ connected_user_id,
    if bool_decide (connected_user_id ≠ user_id)
    then send_personal_message connected_user_id (UserStatus user_id status)
    else ret ()).

Definition connect (websocket : nat) (user_id : Z) : CM unit :=
  emit (Accept websocket) >>
  modify (λ s, match active_connections s !! user_id with
               | None => set_active (insert user_id []) s
               | Some _ => s
               end) >>
  modify (set_active (alter (λ conns, conns ++ [websocket]) user_id)) >>
  set_user_online user_id true >>
  broadcast_user_status user_id "online".

(** The body of the loop over [list(self.chat_rooms.keys())]. *)
Definition purge_room (user_id chat_id : Z) : CM unit :=
  let! s := get in
  match chat_rooms s !! chat_id with
  | None => raise KeyError
  | Some members =>
      if decide (user_id ∈ members) then
        let members' := members ∖ {[user_id]} in
        if decide (members' = ∅)
        then put (set_rooms (delete chat_id) s)
        else put (set_rooms (insert chat_id members') s)
      else ret ()
  end.

(** The body of the loop over [list(self.typing_users.keys())]. *)
Definition purge_typing (user_id chat_id : Z) : CM unit :=
  let! s := get in
  match typing_users s !! chat_id with
  | None => raise KeyError
  | Some users =>
      if decide (user_id ∈ users) then
        put (set_typing (insert chat_id (users ∖ {[user_id]})) s) >>
        broadcast_typing_status chat_id user_id false
      else ret ()
  end.

(** The first block of [disconnect]: the registry. *)
Definition drop_connection (user_id : Z) (websocket : option nat) : CM unit :=
  let! s := get in
  match active_connections s !! user_id with
  | None => ret ()
  | Some _ =>
      match websocket with
      | Some ws => remove_connection user_id ws
      | None => ret ()
      end >>
      let! s := get in
      match active_connections s !! user_id with
      | None => raise KeyError
      | Some [] =>
          put (set_active (delete user_id) s) >>
          set_user_online user_id false >>
          broadcast_user_status user_id "offline"
      | Some (_ :: _) => ret ()
      end
  end.

(** The second block: [for chat_id in list(self.chat_rooms.keys())]. *)
Definition purge_rooms (user_id : Z) : CM unit :=
  let! s := get in
  for_each (elements (dom (chat_rooms s))) (purge_room user_id).

(** The third block: [for chat_id in list(self.typing_users.keys())]. *)
Definition purge_typings (user_id : Z) : CM unit :=
  let! s := get in
  for_each (elements (dom (typing_users s))) (purge_typing user_id).

Definition disconnect (user_id : Z) (websocket : option nat) : CM unit :=
  drop_connection user_id websocket >>
  purge_rooms user_id >>
  purge_typings user_id.

Definition join_chat_room (user_id chat_id : Z) : CM unit :=
  modify (λ s, match chat_rooms s !! chat_id with
               | None => set_rooms (insert chat_id ∅) s
               | Some _ => s
               end) >>
  modify (set_rooms (alter (λ members, {[user_id]} ∪ members) chat_id)).

Definition leave_chat_room (user_id chat_id : Z) : CM unit :=
  let! s := get in
  match chat_rooms s !! chat_id with
  | Some members =>
      if decide (user_id ∈ members) then
        put (set_rooms (insert chat_id (members ∖ {[user_id]})) s) >>
        match typing_users s !! chat_id with
        | Some users =>
            if decide (user_id ∈ users)
            then set_typing_status chat_id user_id false
            else ret ()
        | None => ret ()
        end
      else ret ()
  | None => ret ()
  end.

(** ** WebSocketManager *)

(** The decoded inbound dictionary, with the entries [handle_message] reads
    ([data.get] gives [None] for a missing one), typed as the manager's
    signatures annotate them. *)
Record data : Type := {
  type_ : option string;
  chat_id : option Z;
  content : option string;
  is_typing : option bool;
  message_id : option Z
}.

Definition handle_message (user_id : Z) (d : data) : CM unit :=
  let message_type := type_ d in
  if decide (message_type = Some "join_chat") then
    match truthy_int (chat_id d) with
    | Some c => join_chat_room user_id c
    | None => ret ()
    end
  else if decide (message_type = Some "leave_chat") then
    match truthy_int (chat_id d) with
    | Some c => leave_chat_room user_id c
    | None => ret ()
    end
  else if decide (message_type = Some "typing") then
    match chat_id d with
    | Some c => set_typing_status c user_id (default false (is_typing d))
    | None => ret ()
    end
  else if decide (message_type = Some "message") then
    match truthy_int (chat_id d), truthy_str (content d) with
    | Some c, Some text =>
        broadcast_to_chat c (NewMessage c user_id text) None
    | _, _ => ret ()
    end
  else if decide (message_type = Some "message_read") then
    match truthy_int (message_id d), truthy_int (chat_id d) with
    | Some mid, Some c =>
        broadcast_to_chat c (MessageRead mid c user_id) (Some user_id)
    | _, _ => ret ()
    end
  else ret ().

(** ** The WebSocket endpoint of [app/main.py] *)

(** What [json.loads] makes of a text frame: it raises [JSONDecodeError], or
    gives a value that is not a dictionary (on which [data.get] raises
    [AttributeError]), or a dictionary. *)
Inductive parsed : Type :=
  | JSONDecodeError
  | NotADict
  | Dict (d : data).

Variable json_loads : string → parsed.

(** The body of the receive loop, for one text frame. *)
Definition on_text (user_id : Z) (text : string) : CM unit :=
  match json_loads text with
  | Dict d => handle_message user_id d
  | NotADict => raise AttributeError
  | JSONDecodeError => send_personal_message user_id (PlainText text user_id)
  end.

(** [websocket_endpoint], for a connection that delivers the frames [frames]
    and is then closed by the transport: [receive_text] raises, the
    [except Exception] clause swallows it and [finally] runs
    [disconnect(user_id)], without the socket. *)
Definition websocket_endpoint (websocket : nat) (user_id : Z)
    (frames : list string) : CM unit :=
  connect websocket user_id >>
  catch (for_each frames (on_text user_id) >> raise WebSocketDisconnect)
        (λ _, ret ()) >>
  disconnect user_id None.

(** ** What a run is observed by *)

(** The writes of one message on a list of connections, in order. *)
Definition attempts (m : message) (conns : list nat) : list effect :=
  (λ ws, SendText ws m (send_ok ws)) <$> conns.

(** The connections that survive a send. *)
Definition keep_ok (conns : list nat) : list nat :=
  filter (λ ws, send_ok ws = true) conns.

(** The registry after a send to each user of [targets]. *)
Definition drop_failed (targets : list Z) (a : gmap Z (list nat))
    : gmap Z (list nat) :=
  foldl (λ a user_id, alter keep_ok user_id a) a targets.

(** The users a broadcast to a room writes to, in the order of the loop. *)
Definition recipients (s : ConnectionManager) (chat_id : Z)
    (exclude_user_id : option Z) : list Z :=
  filter (λ user_id, excluded exclude_user_id user_id = false)
         (elements (present s chat_id)).

(** The writes of a broadcast: for each recipient in turn, one write per
    live connection. *)
Definition fan_out (s : ConnectionManager) (m : message) (targets : list Z)
    : list effect :=
  concat ((λ user_id, attempts m (live s user_id)) <$> targets).

(** The users a status change is sent to: every key of the registry but
    the user itself. *)
Definition status_targets (s : ConnectionManager) (user_id : Z) : list Z :=
  filter (λ v, v ≠ user_id) (elements (dom (active_connections s))).

(** The state [set_typing_status] leaves before it broadcasts. *)
Definition typing_update (chat_id user_id : Z) (is_typing : bool)
    (s : ConnectionManager) : ConnectionManager :=
  set_typing (insert chat_id (if is_typing then {[user_id]} ∪ typing s chat_id
                              else typing s chat_id ∖ {[user_id]})) s.

(** What the loop of [disconnect] over the rooms makes of one room: the
    user is taken out, and a room left empty is deleted. *)
Definition purged_room (user_id : Z) (members : gset Z) : option (gset Z) :=
  if decide (user_id ∈ members) then
    if decide (members ∖ {[user_id]} = ∅) then None
    else Some (members ∖ {[user_id]})
  else Some members.

(** The registry [a'] is [a] where some users lost the connections whose
    write fails: the only change a broadcast makes. *)
Definition shrinks (a a' : gmap Z (list nat)) : Prop :=
  ∀ user_id, a' !! user_id = a !! user_id ∨
             a' !! user_id = keep_ok <$> a !! user_id.

(** A write of a typing-stopped event of the user. *)
Definition typing_stop (user_id : Z) (e : effect) : Prop :=
  ∃ ws chat_id ok, e = SendText ws (Typing chat_id user_id false) ok.

(** The list [disconnect] leaves for a user with connections [conns]:
    [None] when [remove] raises. *)
Definition remaining (conns : list nat) (websocket : option nat)
    : option (list nat) :=
  match websocket with
  | Some ws => list_remove ws conns
  | None => Some conns
  end.

(** The final state of a run. *)
Definition final {A} (r : outcome A * ConnectionManager * list effect)
    : ConnectionManager := r.1.2.



(** ** The statements of the specification

    Each of the following propositions words one sentence of the
    specification over the embedding; they are compared with the code
    below. *)


(** A successful send: the event is a [message] event with a chat id and a
    content, and the store accepts the message, that is, the [send_message]
    route, run for the same sender, chat and content on the database [db],
    finds the sender authorized, commits the message and returns its row
    (with the canonical key and timestamp). *)
Definition successful_send (db : Messages.Db) (new_id now : Z) (user_id : Z)
    (d : data) (c : Z) (text : string) (row : Message) : Prop :=
  type_ d = Some "message" ∧
  truthy_int (chat_id d) = Some c ∧
  truthy_str (content d) = Some text ∧
  ∃ db',
    Messages.send_message new_id now true true
      {| Messages.content := text; Messages.chat_id := c;
         Messages.reply_to_message_id := None |} user_id db =
      (Return row, db', [DbCommit row]).

(** A user without live connection is in no room and in no typing set. *)
Definition connectionless_absent (s : ConnectionManager) : Prop :=
  ∀ user_id chat_id,
    live s user_id = [] →
    (user_id ∉ present s chat_id) ∧ (user_id ∉ typing s chat_id).

(** [join] does nothing for a user without live connection. *)
Definition spec_join_noop (s : ConnectionManager) (user_id chat_id : Z)
    : Prop :=
  live s user_id = [] → join_chat_room user_id chat_id s = (Return (), s, []).

(** The users typing in a room are present in it. *)
Definition typing_subset (s : ConnectionManager) : Prop :=
  ∀ chat_id, typing s chat_id ⊆ present s chat_id.

(** A socket write: the only effect the manager performs besides
    [accept] and the Redis status. *)
Definition is_write (e : effect) : Prop := ∃ ws m ok, e = SendText ws m ok.

(** A write of the offline status of the user, or its record in Redis. *)
Definition offline_transition (user_id : Z) (e : effect) : Prop :=
  e = RedisStatus user_id false ∨
  ∃ ws ok, e = SendText ws (UserStatus user_id "offline") ok.

(** Unregistering one of several connections leaves the memberships of the
    user alone and triggers no offline transition. *)
Definition spec_unregister_frame (s : ConnectionManager) (user_id : Z)
    (ws : nat) : Prop :=
  match disconnect user_id (Some ws) s with
  | (o, s', tr) =>
      o = Return () → live s' user_id ≠ [] →
      (∀ chat_id,
         (user_id ∈ present s' chat_id ↔ user_id ∈ present s chat_id) ∧
         (user_id ∈ typing s' chat_id ↔ user_id ∈ typing s chat_id)) ∧
      Forall (λ e, ¬ offline_transition user_id e) tr
  end.

(** [send] writes to every live connection, drops the ones whose write
    failed, and fails exactly when the user had none. *)
Definition spec_send (s : ConnectionManager) (user_id : Z) (m : message)
    : Prop :=
  match send_personal_message user_id m s with
  | (o, s', tr) =>
      (∀ ws, ws ∈ live s user_id → SendText ws m (send_ok ws) ∈ tr) ∧
      (∀ ws, ws ∈ live s' user_id ↔ ws ∈ live s user_id ∧ send_ok ws = true) ∧
      ((∃ e, o = Raise e) ↔ live s user_id = [])
  end.

(** An unparseable frame received on [ws] is answered by one [error] event
    on [ws] and changes nothing. *)
Definition spec_malformed (s : ConnectionManager) (ws : nat) (user_id : Z)
    (text : string) : Prop :=
  json_loads text = JSONDecodeError →
  ∃ m ok, on_text user_id text s = (Return (), s, [SendText ws m ok]) ∧
          msg_type m = "error".

(** The tags [handle_message] dispatches on. *)
Definition known_tags : list (option string) :=
  [Some "join_chat"; Some "leave_chat"; Some "typing"; Some "message";
   Some "message_read"].

(** ** Concrete managers and inputs *)

Definition all_ok (ws : nat) : bool := true.
Definition all_fail (ws : nat) : bool := false.

(** No frame parses. *)
Definition no_json (text : string) : parsed := JSONDecodeError.

(** Users 1 (connection 10) and 2 (connection 20), both in room 5. *)
Definition room_1_2 : ConnectionManager :=
  {| active_connections := <[1 := [10%nat]]> (<[2 := [20%nat]]> ∅);
     chat_rooms := <[5 := {[1; 2]}]> ∅;
     typing_users := ∅;
     redis := false |}.

(** Users 0 (connection 10) and 2 (connection 20), both in room 5. *)
Definition room_0_2 : ConnectionManager :=
  {| active_connections := <[0 := [10%nat]]> (<[2 := [20%nat]]> ∅);
     chat_rooms := <[5 := {[0; 2]}]> ∅;
     typing_users := ∅;
     redis := false |}.

(** User 1 with two connections, 10 and 11, in room 5. *)
Definition two_tabs : ConnectionManager :=
  {| active_connections := <[1 := [10%nat; 11%nat]]> ∅;
     chat_rooms := <[5 := {[1]}]> ∅;
     typing_users := ∅;
     redis := false |}.

(** User 2 (connection 20) in room 5, user 9 (connection 90) in no room. *)
Definition room_2_outsider_9 : ConnectionManager :=
  {| active_connections := <[2 := [20%nat]]> (<[9 := [90%nat]]> ∅);
     chat_rooms := <[5 := {[2]}]> ∅;
     typing_users := ∅;
     redis := false |}.

(** The membership table in which user 2 alone may post to chat 5. *)
Definition only_2_in_5 : Messages.Db :=
  {| Messages.chat_members :=
       [{| member_chat_id := 5; member_user_id := 2; is_active := true;
           can_send_messages := true |}];
     Messages.messages := [];
     Messages.chats := [{| chat_pk := 5; last_message_at := None |}] |}.

(** [{"type": "join_chat", "chat_id": c}]. *)
Definition join_event (c : Z) : data :=
  {| type_ := Some "join_chat"; chat_id := Some c; content := None;
     is_typing := None; message_id := None |}.

(** [{"type": "message", "chat_id": c, "content": text}]. *)
Definition message_event (c : Z) (text : string) : data :=
  {| type_ := Some "message"; chat_id := Some c; content := Some text;
     is_typing := None; message_id := None |}.

(** [{"type": "join_room", "room_id": 5}]: a tag of the specification the
    code does not know ([room_id] is not read). *)
Definition join_room_event : data :=
  {| type_ := Some "join_room"; chat_id := None; content := None;
     is_typing := None; message_id := None |}.

(** Every frame is JSON, but no dictionary. *)
Definition scalar_json (text : string) : parsed := NotADict.

(** [{"type": "message_read", "message_id": mid, "chat_id": c}]. *)
Definition read_event (mid c : Z) : data :=
  {| type_ := Some "message_read"; chat_id := Some c; content := None;
     is_typing := None; message_id := Some mid |}.

(** [{"type": "typing", "chat_id": c, "is_typing": true}]. *)
Definition typing_event (c : Z) : data :=
  {| type_ := Some "typing"; chat_id := Some c; content := None;
     is_typing := Some true; message_id := None |}.

(** * Properties *)

(** ** Running computations *)

Lemma bind_Return {S A B} (m : M S A) (f : A → M S B) s a s1 t1 :
  m s = (Return a, s1, t1) →
  bind m f s = match f a s1 with (o, s2, t2) => (o, s2, t1 ++ t2) end.
Proof. intros H. unfold bind. by rewrite H. Qed.

Lemma bind_Raise {S A B} (m : M S A) (f : A → M S B) s e s1 t1 :
  m s = (Raise e, s1, t1) → bind m f s = (Raise e, s1, t1).
Proof. intros H. unfold bind. by rewrite H. Qed.

Lemma set_active_id f s :
  f (active_connections s) = active_connections s → set_active f s = s.
Proof. destruct s; unfold set_active; simpl; intros ->; done. Qed.

Lemma set_rooms_id f s : f (chat_rooms s) = chat_rooms s → set_rooms f s = s.
Proof. destruct s; unfold set_rooms; simpl; intros ->; done. Qed.

Lemma set_typing_id f s :
  f (typing_users s) = typing_users s → set_typing f s = s.
Proof. destruct s; unfold set_typing; simpl; intros ->; done. Qed.

Lemma list_remove_app a pre l :
  a ∉ pre → list_remove a (pre ++ a :: l) = Some (pre ++ l).
Proof.
  induction pre as [|b pre IH]; simpl; intros Hin.
  - by rewrite decide_True.
  - rewrite not_elem_of_cons in Hin. destruct Hin as [Hne Hin].
    rewrite decide_False by done. by rewrite IH.
Qed.

Lemma list_remove_elem_of a l : a ∈ l → is_Some (list_remove a l).
Proof.
  induction l as [|b l IH]; simpl; intros Hin.
  - by apply elem_of_nil in Hin.
  - destruct (decide (a = b)); [by eexists|].
    apply elem_of_cons in Hin as [?|Hin]; [done|].
    destruct (IH Hin) as [l' ->]. by eexists.
Qed.

Lemma list_remove_Some a l l' :
  list_remove a l = Some l' → a ∈ l ∧ ∀ b, b ∈ l' → b ∈ l.
Proof.
  revert l'. induction l as [|b l IH]; simpl; intros l' H; [done|].
  destruct (decide (a = b)) as [->|Hne].
  - injection H as <-. split; [left|]. intros c Hc. by right.
  - destruct (list_remove a l) as [l0|] eqn:E; [|done].
    injection H as <-. destruct (IH _ eq_refl) as [Ha Hsub].
    split; [by right|]. intros c Hc.
    apply elem_of_cons in Hc as [->|Hc]; [left|right; auto].
Qed.

Lemma keep_ok_idemp conns : keep_ok (keep_ok conns) = keep_ok conns.
Proof.
  unfold keep_ok. induction conns as [|c l IH]; [done|].
  rewrite filter_cons. destruct (decide (send_ok c = true)) as [Hc|Hc].
  - rewrite filter_cons_True by done. by rewrite IH.
  - done.
Qed.

Lemma send_all_run conns m s :
  send_all conns m s =
    (Return (filter (λ ws, send_ok ws ≠ true) conns), s, attempts m conns).
Proof.
  induction conns as [|c l IH]; [done|].
  cbn [send_all]. unfold bind at 1, catch, send_text, bind at 1, emit.
  rewrite filter_cons.
  destruct (send_ok c) eqn:Hc; cbn;
    rewrite (bind_Return _ _ _ _ _ _ IH); cbn;
    rewrite ?app_nil_r, ?Hc; unfold attempts; case_decide; done.
Qed.

Lemma remove_failed_run user_id pre l s :
  Forall (λ ws, send_ok ws = true) pre →
  active_connections s !! user_id = Some (pre ++ l) →
  for_each (filter (λ ws, send_ok ws ≠ true) l) (remove_connection user_id) s =
    (Return (), set_active (insert user_id (pre ++ keep_ok l)) s, []).
Proof.
  revert pre s. induction l as [|c l IH]; intros pre s Hpre Hs.
  - cbn. unfold ret. f_equal. f_equal. symmetry. apply set_active_id.
    apply insert_id. by rewrite Hs.
  - unfold keep_ok. rewrite !filter_cons.
    destruct (send_ok c) eqn:Hc.
    + rewrite decide_False by (intros ?; done). rewrite decide_True by done.
      specialize (IH (pre ++ [c]) s). rewrite <- !(assoc_L (++)) in IH.
      apply IH; [|done]. apply Forall_app. split; [done|].
      by apply Forall_singleton.
    + rewrite decide_True by done. rewrite decide_False by done.
      cbn [for_each]. unfold bind at 1, remove_connection at 1, bind at 1, get.
      rewrite Hs. rewrite list_remove_app.
      2:{ intros Hin. rewrite Forall_forall in Hpre.
          specialize (Hpre _ Hin). congruence. }
      unfold put. cbn.
      rewrite (IH pre); [|done|cbn; by rewrite lookup_insert_eq].
      cbn. unfold set_active; cbn. by rewrite insert_insert_eq.
Qed.

(** [send_personal_message] never raises; it writes once to every live
    connection of the user, in order, and drops from the registry exactly
    the connections whose write failed. *)
Lemma send_personal_message_run user_id m s :
  send_personal_message user_id m s =
    (Return (), set_active (alter keep_ok user_id) s,
     attempts m (live s user_id)).
Proof.
  unfold send_personal_message, live, bind at 1, get.
  destruct (active_connections s !! user_id) as [conns|] eqn:Hs; cbn.
  - rewrite (bind_Return _ _ _ _ _ _ (send_all_run conns m s)).
    rewrite (remove_failed_run user_id [] conns s); [|done|done].
    cbn. rewrite app_nil_r. do 2 f_equal. unfold set_active. f_equal.
    apply map_eq. intros j. rewrite lookup_alter, lookup_insert.
    destruct (decide (user_id = j)) as [->|]; [by rewrite Hs|done].
  - unfold ret. do 2 f_equal. symmetry. apply set_active_id.
    apply alter_id. intros x. by rewrite Hs.
Qed.

Lemma lookup_drop_failed targets a user_id :
  drop_failed targets a !! user_id =
    if decide (user_id ∈ targets) then keep_ok <$> a !! user_id
    else a !! user_id.
Proof.
  revert a. induction targets as [|v T IH]; intros a; cbn.
  - rewrite decide_False; [done|]. apply not_elem_of_nil.
  - fold (drop_failed T (alter keep_ok v a)). rewrite IH, lookup_alter.
    destruct (decide (v = user_id)) as [->|Hne].
    + rewrite (decide_True (P := user_id ∈ user_id :: T)) by left.
      destruct (decide (user_id ∈ T)); [|done].
      destruct (a !! user_id); cbn; [|done]. by rewrite keep_ok_idemp.
    + destruct (decide (user_id ∈ T)) as [Hin|Hin].
      * rewrite decide_True; [done|]. by right.
      * rewrite decide_False; [done|].
        rewrite not_elem_of_cons. split; [congruence|done].
Qed.

Lemma for_each_ext {S A} (l : list A) (f g : A → M S unit) s :
  (∀ x s, f x s = g x s) → for_each l f s = for_each l g s.
Proof.
  intros Hfg. revert s. induction l as [|x l IH]; intros s; [done|].
  cbn. unfold bind. rewrite Hfg. destruct (g x s) as [[[[]|e] s1] t1]; [|done].
  by rewrite IH.
Qed.

Lemma broadcast_loop_run targets m (skip : Z → bool) s :
  NoDup targets →
  for_each targets (λ user_id,
      if skip user_id then ret ()
      else send_personal_message user_id m) s =
    (Return (),
     set_active (drop_failed (filter (λ v, skip v = false) targets)) s,
     fan_out s m (filter (λ v, skip v = false) targets)).
Proof.
  revert s. induction targets as [|v T IH]; intros s Hnd.
  - cbn. unfold ret. do 2 f_equal. symmetry. by apply set_active_id.
  - apply NoDup_cons in Hnd as [Hv Hnd]. cbn [for_each].
    rewrite filter_cons. destruct (skip v) eqn:He.
    + rewrite (bind_Return _ _ s () s []) by done.
      rewrite IH by done. rewrite decide_False by done. done.
    + rewrite (bind_Return _ _ _ _ _ _ (send_personal_message_run v m s)).
      rewrite IH by done. rewrite decide_True by done.
      unfold fan_out. cbn. do 2 f_equal. f_equal.
      apply Forall_fmap_ext, Forall_forall. intros w Hw.
      apply list_elem_of_filter in Hw as [_ Hw].
      unfold live. cbn. rewrite lookup_alter_ne; [done|].
      intros ->. done.
Qed.

(** [broadcast_to_chat] never raises and touches the registry only. *)
Lemma broadcast_to_chat_run chat_id m e s :
  broadcast_to_chat chat_id m e s =
    (Return (), set_active (drop_failed (recipients s chat_id e)) s,
     fan_out s m (recipients s chat_id e)).
Proof.
  unfold broadcast_to_chat, recipients, present, bind at 1, get.
  destruct (chat_rooms s !! chat_id) as [members|] eqn:Hs; cbn.
  - by rewrite broadcast_loop_run by apply NoDup_elements.
  - rewrite elements_empty. cbn. unfold ret. do 2 f_equal.
    symmetry. by apply set_active_id.
Qed.

Lemma broadcast_user_status_run user_id status s :
  broadcast_user_status user_id status s =
    (Return (), set_active (drop_failed (status_targets s user_id)) s,
     fan_out s (UserStatus user_id status) (status_targets s user_id)).
Proof.
  unfold broadcast_user_status, status_targets, bind at 1, get.
  rewrite (for_each_ext _ _ (λ v,
    if negb (bool_decide (v ≠ user_id)) then ret ()
    else send_personal_message v (UserStatus user_id status))).
  2:{ intros x s0. by destruct (bool_decide (x ≠ user_id)). }
  rewrite broadcast_loop_run by apply NoDup_elements. cbn.
  assert (∀ l : list Z,
    filter (λ v, negb (bool_decide (v ≠ user_id)) = false) l =
    filter (λ v, v ≠ user_id) l) as ->; [|done].
  intros l. apply list_filter_iff. intros v.
  rewrite negb_false_iff, bool_decide_eq_true. done.
Qed.

Lemma set_user_online_run user_id is_online s :
  set_user_online user_id is_online s =
    (Return (), s, if redis s then [RedisStatus user_id is_online] else []).
Proof. unfold set_user_online, bind, get. by destruct (redis s). Qed.

Lemma set_typing_status_run chat_id user_id is_typing s :
  set_typing_status chat_id user_id is_typing s =
    (Return (),
     set_active (drop_failed (recipients s chat_id (Some user_id)))
       (typing_update chat_id user_id is_typing s),
     fan_out s (Typing chat_id user_id is_typing)
       (recipients s chat_id (Some user_id))).
Proof.
  unfold set_typing_status, broadcast_typing_status, bind, modify.
  rewrite broadcast_to_chat_run. cbn.
  assert (∀ s1, chat_rooms s1 = chat_rooms s →
     recipients s1 chat_id (Some user_id) = recipients s chat_id (Some user_id))
    as Hrec.
  { intros s1 H. unfold recipients, present. by rewrite H. }
  unfold typing_update, typing.
  destruct (typing_users s !! chat_id) as [users|] eqn:Ht; cbn.
  - rewrite Hrec by done. do 2 f_equal. unfold set_active, set_typing; cbn.
    f_equal. apply map_eq. intros j. rewrite lookup_alter, lookup_insert.
    destruct (decide (chat_id = j)) as [->|]; [by rewrite Ht|done].
  - rewrite Hrec by done. do 2 f_equal. unfold set_active, set_typing; cbn.
    f_equal. by rewrite alter_insert_eq.
Qed.

Lemma join_chat_room_run user_id chat_id s :
  join_chat_room user_id chat_id s =
    (Return (),
     set_rooms (insert chat_id ({[user_id]} ∪ present s chat_id)) s, []).
Proof.
  unfold join_chat_room, bind, modify, present. cbn. do 2 f_equal.
  destruct (chat_rooms s !! chat_id) as [members|] eqn:Hr; cbn.
  - unfold set_rooms. f_equal. apply map_eq. intros j.
    rewrite lookup_alter, lookup_insert.
    destruct (decide (chat_id = j)) as [->|]; [by rewrite Hr|done].
  - unfold set_rooms; cbn. f_equal. by rewrite alter_insert_eq.
Qed.

Lemma leave_chat_room_run user_id chat_id s :
  leave_chat_room user_id chat_id s =
    if decide (user_id ∈ present s chat_id) then
      let s1 := set_rooms (insert chat_id (present s chat_id ∖ {[user_id]})) s in
      if decide (user_id ∈ typing s chat_id)
      then set_typing_status chat_id user_id false s1
      else (Return (), s1, [])
    else (Return (), s, []).
Proof.
  unfold leave_chat_room, present, typing, bind at 1, get.
  destruct (chat_rooms s !! chat_id) as [members|]; cbn -[set_typing_status].
  - destruct (decide (user_id ∈ members)); [|done].
    unfold bind at 1, put.
    destruct (typing_users s !! chat_id) as [users|]; cbn -[set_typing_status].
    + destruct (decide (user_id ∈ users)); [|done].
      by destruct (set_typing_status _ _ _ _) as [[? ?] ?].
    + rewrite decide_False by set_solver. done.
  - rewrite decide_False by set_solver. done.
Qed.

Lemma purge_room_run user_id chat_id s :
  is_Some (chat_rooms s !! chat_id) →
  purge_room user_id chat_id s =
    (Return (),
     set_rooms (partial_alter (λ o, o ≫= purged_room user_id) chat_id) s, []).
Proof.
  intros [members Hm]. unfold purge_room, bind, get. rewrite Hm.
  assert (∀ o, chat_rooms s !! chat_id ≫= purged_room user_id = o →
    partial_alter (λ o, o ≫= purged_room user_id) chat_id (chat_rooms s) =
    match o with Some x => <[chat_id := x]> (chat_rooms s)
               | None => delete chat_id (chat_rooms s) end) as Hpa.
  { intros o Ho. apply map_eq. intros j. rewrite lookup_partial_alter.
    destruct (decide (chat_id = j)) as [->|Hne].
    - rewrite Ho. destruct o; [by rewrite lookup_insert_eq|by rewrite lookup_delete_eq].
    - destruct o; [by rewrite lookup_insert_ne|by rewrite lookup_delete_ne]. }
  rewrite Hm in Hpa. cbn in Hpa. unfold purged_room in Hpa |- *.
  destruct (decide (user_id ∈ members)).
  - destruct (decide (members ∖ {[user_id]} = ∅)); unfold put, set_rooms;
      by rewrite (Hpa _ eq_refl).
  - unfold ret. do 2 f_equal. symmetry. apply set_rooms_id.
    rewrite (Hpa _ eq_refl). by apply insert_id.
Qed.

Lemma purge_rooms_loop user_id keys s :
  NoDup keys →
  (∀ k, k ∈ keys → is_Some (chat_rooms s !! k)) →
  ∃ rooms,
    for_each keys (purge_room user_id) s =
      (Return (), set_rooms (λ _, rooms) s, []) ∧
    ∀ k, rooms !! k =
      if decide (k ∈ keys) then chat_rooms s !! k ≫= purged_room user_id
      else chat_rooms s !! k.
Proof.
  revert s. induction keys as [|c keys IH]; intros s Hnd Hdom.
  - exists (chat_rooms s). split.
    + cbn. unfold ret. do 2 f_equal. symmetry. by apply set_rooms_id.
    + intros k. rewrite decide_False; [done|]. apply not_elem_of_nil.
  - apply NoDup_cons in Hnd as [Hc Hnd]. cbn [for_each].
    rewrite (bind_Return _ _ _ _ _ _
      (purge_room_run user_id c s (Hdom c (list_elem_of_here _ _)))).
    set (s1 := set_rooms _ s).
    destruct (IH s1 Hnd) as (rooms & Hrun & Hlook).
    { intros k Hk. subst s1. cbn. rewrite lookup_partial_alter_ne.
      - apply Hdom. by right.
      - intros ->. done. }
    exists rooms. split; [by rewrite Hrun|].
    intros k. rewrite Hlook. subst s1. cbn.
    destruct (decide (k = c)) as [->|Hne].
    + rewrite decide_False by done.
      rewrite (decide_True (P := c ∈ c :: keys)) by left.
      by rewrite lookup_partial_alter_eq.
    + rewrite lookup_partial_alter_ne by done.
      destruct (decide (k ∈ keys)) as [Hin|Hin].
      * rewrite decide_True; [done|]. by right.
      * rewrite decide_False; [done|].
        rewrite not_elem_of_cons. done.
Qed.

(** The second block of [disconnect] never raises, performs no effect and
    takes the user out of every room. *)
Lemma purge_rooms_run user_id s :
  purge_rooms user_id s =
    (Return (),
     set_rooms (λ _, omap (purged_room user_id) (chat_rooms s)) s, []).
Proof.
  unfold purge_rooms, bind at 1, get.
  destruct (purge_rooms_loop user_id (elements (dom (chat_rooms s))) s)
    as (rooms & -> & Hlook).
  - apply NoDup_elements.
  - intros k Hk. apply elem_of_elements in Hk. by apply elem_of_dom.
  - assert (rooms = omap (purged_room user_id) (chat_rooms s)) as ->; [|done].
    apply map_eq. intros k. rewrite Hlook, lookup_omap.
    destruct (decide (k ∈ elements (dom (chat_rooms s)))) as [|Hk]; [done|].
    rewrite elem_of_elements, not_elem_of_dom in Hk. by rewrite Hk.
Qed.

Lemma shrinks_refl a : shrinks a a.
Proof. intros v. by left. Qed.

Lemma shrinks_trans a b c : shrinks a b → shrinks b c → shrinks a c.
Proof.
  intros Hab Hbc v. destruct (Hab v) as [H1|H1], (Hbc v) as [H2|H2];
    rewrite H2, H1; auto.
  right. destruct (a !! v); cbn; [|done]. by rewrite keep_ok_idemp.
Qed.

Lemma shrinks_drop_failed targets a : shrinks a (drop_failed targets a).
Proof.
  intros v. rewrite lookup_drop_failed. destruct (decide (v ∈ targets)); auto.
Qed.

Lemma fan_out_Forall (P : effect → Prop) s m targets :
  (∀ ws ok, P (SendText ws m ok)) → Forall P (fan_out s m targets).
Proof.
  intros HP. unfold fan_out. apply Forall_concat, Forall_fmap, Forall_forall.
  intros v _. cbn. unfold attempts. apply Forall_fmap, Forall_forall.
  intros ws _. apply HP.
Qed.


Lemma elem_of_recipients s chat_id e v :
  v ∈ recipients s chat_id e ↔ v ∈ present s chat_id ∧ excluded e v = false.
Proof.
  unfold recipients. rewrite list_elem_of_filter, elem_of_elements. tauto.
Qed.

(** A sender other than user 0 is not among the recipients of its own
    broadcast. *)
Lemma sender_not_recipient s chat_id user_id :
  user_id ≠ 0 → user_id ∉ recipients s chat_id (Some user_id).
Proof.
  intros Hne. rewrite elem_of_recipients. intros [_ He].
  unfold excluded in He. cbn in He. rewrite decide_False in He by done.
  by rewrite bool_decide_eq_false in He.
Qed.

Lemma purge_typing_run user_id chat_id s users :
  typing_users s !! chat_id = Some users →
  purge_typing user_id chat_id s =
    if decide (user_id ∈ users) then
      let s1 := set_typing (insert chat_id (users ∖ {[user_id]})) s in
      (Return (),
       set_active (drop_failed (recipients s chat_id (Some user_id))) s1,
       fan_out s (Typing chat_id user_id false)
         (recipients s chat_id (Some user_id)))
    else (Return (), s, []).
Proof.
  intros Hu. unfold purge_typing, bind at 1, get. rewrite Hu.
  destruct (decide (user_id ∈ users)); [|done].
  unfold bind, put, broadcast_typing_status.
  by rewrite broadcast_to_chat_run.
Qed.

Lemma purge_typings_loop user_id keys s :
  NoDup keys →
  (∀ k, k ∈ keys → is_Some (typing_users s !! k)) →
  ∃ s' tr,
    for_each keys (purge_typing user_id) s = (Return (), s', tr) ∧
    chat_rooms s' = chat_rooms s ∧ redis s' = redis s ∧
    shrinks (active_connections s) (active_connections s') ∧
    Forall (typing_stop user_id) tr ∧
    (∀ v, (∀ k, v ∉ recipients s k (Some user_id)) →
          active_connections s' !! v = active_connections s !! v) ∧
    ∀ k, typing_users s' !! k =
      if decide (k ∈ keys) then (λ users, users ∖ {[user_id]}) <$> typing_users s !! k
      else typing_users s !! k.
Proof.
  revert s. induction keys as [|c keys IH]; intros s Hnd Hdom.
  - exists s, []. split_and!; try done; apply shrinks_refl.
  - apply NoDup_cons in Hnd as [Hc Hnd]. cbn [for_each].
    destruct (Hdom c) as [users Hu]; [left|].
    pose proof (purge_typing_run user_id c s users Hu) as Hrun.
    destruct (decide (user_id ∈ users)) as [Hin|Hin]; cbn zeta in Hrun.
    + rewrite (bind_Return _ _ _ _ _ _ Hrun).
      set (s1 := set_active _ _).
      destruct (IH s1 Hnd)
        as (s' & tr & Hloop & Hr & Hre & Hsh & Htr & Hun & Hty).
      { intros k Hk. subst s1. cbn. rewrite lookup_insert_ne.
        - apply Hdom. by right.
        - intros ->. done. }
      rewrite Hloop. eexists _, _. split; [done|].
      split_and!; try done.
      * eapply shrinks_trans; [|exact Hsh]. apply shrinks_drop_failed.
      * apply Forall_app. split; [|done]. apply fan_out_Forall.
        intros ws ok. by exists ws, c, ok.
      * intros v Hv. rewrite Hun by done. subst s1. cbn.
        rewrite lookup_drop_failed. by rewrite decide_False.
      * intros k. rewrite Hty. subst s1. cbn.
        destruct (decide (k = c)) as [->|Hne].
        -- rewrite decide_False by done.
           rewrite (decide_True (P := c ∈ c :: keys)) by left.
           by rewrite lookup_insert_eq, Hu.
        -- rewrite lookup_insert_ne by done.
           destruct (decide (k ∈ keys)) as [Hk|Hk].
           ++ rewrite decide_True; [done|]. by right.
           ++ rewrite decide_False; [done|]. by rewrite not_elem_of_cons.
    + rewrite (bind_Return _ _ _ _ _ _ Hrun).
      destruct (IH s Hnd)
        as (s' & tr & Hloop & Hr & Hre & Hsh & Htr & Hun & Hty).
      { intros k Hk. apply Hdom. by right. }
      rewrite Hloop. eexists _, _. split; [done|].
      split_and!; try done.
      intros k. rewrite Hty.
      destruct (decide (k = c)) as [->|Hne].
      * rewrite decide_False by done.
        rewrite (decide_True (P := c ∈ c :: keys)) by left.
        rewrite Hu. cbn. f_equal. symmetry.
        by apply difference_disjoint_L, disjoint_singleton_r.
      * destruct (decide (k ∈ keys)) as [Hk|Hk].
        -- rewrite decide_True; [done|]. by right.
        -- rewrite decide_False; [done|]. by rewrite not_elem_of_cons.
Qed.

(** The third block of [disconnect] never raises; it takes the user out of
    every typing set, leaves the rooms alone and writes typing-stopped
    events only. *)
Lemma purge_typings_run user_id s :
  ∃ s' tr,
    purge_typings user_id s = (Return (), s', tr) ∧
    chat_rooms s' = chat_rooms s ∧ redis s' = redis s ∧
    shrinks (active_connections s) (active_connections s') ∧
    Forall (typing_stop user_id) tr ∧
    (∀ v, (∀ k, v ∉ recipients s k (Some user_id)) →
          active_connections s' !! v = active_connections s !! v) ∧
    typing_users s' = (λ users, users ∖ {[user_id]}) <$> typing_users s.
Proof.
  unfold purge_typings, bind at 1, get.
  destruct (purge_typings_loop user_id (elements (dom (typing_users s))) s)
    as (s' & tr & -> & Hr & Hre & Hsh & Htr & Hun & Hty).
  - apply NoDup_elements.
  - intros k Hk. apply elem_of_elements in Hk. by apply elem_of_dom.
  - exists s', tr. split_and!; try done.
    apply map_eq. intros k. rewrite Hty, lookup_fmap.
    destruct (decide (k ∈ elements (dom (typing_users s)))) as [|Hk]; [done|].
    rewrite elem_of_elements, not_elem_of_dom in Hk. by rewrite Hk.
Qed.

Lemma drop_connection_absent user_id websocket s :
  active_connections s !! user_id = None →
  drop_connection user_id websocket s = (Return (), s, []).
Proof. intros H. unfold drop_connection, bind, get. by rewrite H. Qed.

Lemma drop_connection_raise user_id websocket s conns :
  active_connections s !! user_id = Some conns →
  remaining conns websocket = None →
  drop_connection user_id websocket s = (Raise ValueError, s, []).
Proof.
  intros H Hrem. destruct websocket as [ws|]; [|done]. cbn in Hrem.
  unfold drop_connection, bind at 1, get. rewrite H.
  unfold bind at 1, remove_connection, bind at 1, get. by rewrite H, Hrem.
Qed.

Lemma drop_connection_keep user_id websocket s conns c l :
  active_connections s !! user_id = Some conns →
  remaining conns websocket = Some (c :: l) →
  drop_connection user_id websocket s =
    (Return (), set_active (insert user_id (c :: l)) s, []).
Proof.
  intros H Hrem. unfold drop_connection, bind at 1, get. rewrite H.
  destruct websocket as [ws|]; cbn in Hrem.
  - unfold bind at 1, remove_connection, bind at 1, get. rewrite H, Hrem.
    cbn. unfold bind, get. cbn. by rewrite lookup_insert_eq.
  - injection Hrem as ->. unfold bind, ret, get. rewrite H.
    do 2 f_equal. symmetry. apply set_active_id. by apply insert_id.
Qed.

Lemma drop_connection_last user_id websocket s conns :
  active_connections s !! user_id = Some conns →
  remaining conns websocket = Some [] →
  drop_connection user_id websocket s =
    let s2 := set_active (delete user_id) s in
    (Return (), set_active (drop_failed (status_targets s2 user_id)) s2,
     (if redis s then [RedisStatus user_id false] else []) ++
     fan_out s2 (UserStatus user_id "offline") (status_targets s2 user_id)).
Proof.
  intros H Hrem.
  assert (∀ s1 : ConnectionManager,
    active_connections s1 !! user_id = Some [] →
    set_active (delete user_id) s1 = set_active (delete user_id) s →
    (let! s := get in
     match active_connections s !! user_id with
     | None => raise KeyError
     | Some [] =>
         put (set_active (delete user_id) s) >>
         set_user_online user_id false >>
         broadcast_user_status user_id "offline"
     | Some (_ :: _) => ret ()
     end) s1 =
    (Return (),
     set_active (drop_failed (status_targets (set_active (delete user_id) s) user_id))
       (set_active (delete user_id) s),
     (if redis s then [RedisStatus user_id false] else []) ++
     fan_out (set_active (delete user_id) s) (UserStatus user_id "offline")
       (status_targets (set_active (delete user_id) s) user_id))) as Htail.
  { intros s1 H1 Heq. unfold bind at 1, get. rewrite H1.
    unfold bind at 1, put. rewrite Heq.
    rewrite (bind_Return _ _ _ _ _ _ (set_user_online_run user_id false _)).
    by rewrite broadcast_user_status_run. }
  unfold drop_connection, bind at 1, get. rewrite H.
  destruct websocket as [ws|]; cbn in Hrem.
  - unfold bind at 1, remove_connection, bind at 1, get. rewrite H, Hrem.
    cbn -[bind]. rewrite Htail; [done| |].
    + cbn. by rewrite lookup_insert_eq.
    + unfold set_active; cbn. by rewrite delete_insert_eq.
  - injection Hrem as ->. unfold bind at 1, ret. rewrite Htail; done.
Qed.

Lemma present_purged user_id s s' chat_id :
  chat_rooms s' = omap (purged_room user_id) (chat_rooms s) →
  present s' chat_id = present s chat_id ∖ {[user_id]}.
Proof.
  intros H. unfold present. rewrite H, lookup_omap.
  destruct (chat_rooms s !! chat_id) as [members|]; cbn;
    [|by apply eq_sym, difference_disjoint_L, disjoint_empty_l].
  unfold purged_room. destruct (decide (user_id ∈ members)) as [Hin|Hin].
  - destruct (decide (members ∖ {[user_id]} = ∅)) as [->|]; done.
  - cbn. symmetry. by apply difference_disjoint_L, disjoint_singleton_r.
Qed.

Lemma typing_purged user_id s s' chat_id :
  typing_users s' = (λ users, users ∖ {[user_id]}) <$> typing_users s →
  typing s' chat_id = typing s chat_id ∖ {[user_id]}.
Proof.
  intros H. unfold typing. rewrite H, lookup_fmap.
  destruct (typing_users s !! chat_id); cbn; [done|].
  by apply eq_sym, difference_disjoint_L, disjoint_empty_l.
Qed.

(** [disconnect] after its first block. *)
Lemma disconnect_after_drop user_id websocket s s1 t1 :
  drop_connection user_id websocket s = (Return (), s1, t1) →
  chat_rooms s1 = chat_rooms s → typing_users s1 = typing_users s →
  redis s1 = redis s →
  ∃ s' t2,
    disconnect user_id websocket s = (Return (), s', t1 ++ t2) ∧
    shrinks (active_connections s1) (active_connections s') ∧
    Forall (typing_stop user_id) t2 ∧
    redis s' = redis s ∧
    (user_id ≠ 0 →
     active_connections s' !! user_id = active_connections s1 !! user_id) ∧
    ∀ chat_id,
      present s' chat_id = present s chat_id ∖ {[user_id]} ∧
      typing s' chat_id = typing s chat_id ∖ {[user_id]}.
Proof.
  intros Hdrop Hr Ht Hre. unfold disconnect.
  rewrite (bind_Return _ _ _ _ _ _ Hdrop).
  rewrite (bind_Return _ _ _ _ _ _ (purge_rooms_run user_id s1)).
  destruct (purge_typings_run user_id
              (set_rooms (λ _, omap (purged_room user_id) (chat_rooms s1)) s1))
    as (s' & t2 & -> & Hr' & Hre' & Hsh & Htr & Hun & Hty).
  exists s', t2. cbn in *. split_and!; try done; [congruence| |].
  { intros Hne. apply Hun. intros k. by apply sender_not_recipient. }
  intros chat_id. split.
  - apply present_purged. by rewrite Hr', Hr.
  - apply typing_purged. by rewrite Hty, Ht.
Qed.
Lemma present_insert s chat_id members c :
  present (set_rooms (insert chat_id members) s) c =
    if decide (chat_id = c) then members else present s c.
Proof.
  unfold present. cbn. rewrite lookup_insert.
  by destruct (decide (chat_id = c)).
Qed.

Lemma typing_insert s chat_id users c :
  typing (set_typing (insert chat_id users) s) c =
    if decide (chat_id = c) then users else typing s c.
Proof.
  unfold typing. cbn. rewrite lookup_insert.
  by destruct (decide (chat_id = c)).
Qed.

Lemma connect_run websocket user_id s :
  connect websocket user_id s =
    let s1 := set_active (insert user_id (live s user_id ++ [websocket])) s in
    (Return (), set_active (drop_failed (status_targets s1 user_id)) s1,
     Accept websocket ::
     (if redis s then [RedisStatus user_id true] else []) ++
     fan_out s1 (UserStatus user_id "online") (status_targets s1 user_id)).
Proof.
  unfold connect, bind at 1, emit, bind at 1, modify, bind at 1.
  match goal with |- context [set_active (alter ?f user_id) ?s0] =>
    assert (set_active (alter f user_id) s0 =
            set_active (insert user_id (live s user_id ++ [websocket])) s)
      as -> end.
  { unfold live. destruct (active_connections s !! user_id) as [conns|] eqn:Hs;
      unfold set_active; cbn; f_equal.
    - apply map_eq. intros j. rewrite lookup_alter, lookup_insert.
      destruct (decide (user_id = j)) as [->|]; [by rewrite Hs|done].
    - by rewrite alter_insert_eq. }
  rewrite (bind_Return _ _ _ _ _ _ (set_user_online_run user_id true _)).
  by rewrite broadcast_user_status_run.
Qed.

(** The first block of [disconnect] either raises [ValueError] before it
    changed anything, or returns and leaves rooms and typing sets alone. *)
Lemma drop_connection_cases user_id websocket s :
  (drop_connection user_id websocket s = (Raise ValueError, s, []) ∧
   ∃ conns, active_connections s !! user_id = Some conns ∧
            remaining conns websocket = None) ∨
  (∃ s1 t1,
     drop_connection user_id websocket s = (Return (), s1, t1) ∧
     chat_rooms s1 = chat_rooms s ∧ typing_users s1 = typing_users s ∧
     redis s1 = redis s).
Proof.
  destruct (active_connections s !! user_id) as [conns|] eqn:Hs.
  - destruct (remaining conns websocket) as [[|c l]|] eqn:Hrem.
    + right. rewrite (drop_connection_last _ _ _ _ Hs Hrem).
      by eexists _, _.
    + right. rewrite (drop_connection_keep _ _ _ _ _ _ Hs Hrem).
      by eexists _, _.
    + left. rewrite (drop_connection_raise _ _ _ _ Hs Hrem).
      split; [done|]. by exists conns.
  - right. rewrite (drop_connection_absent _ _ _ Hs). by eexists _, _.
Qed.

(** Whatever its outcome, [disconnect] leaves a state in which the rooms
    and the typing sets are those of the start, or those of the start
    without the user. *)
Lemma disconnect_cases user_id websocket s :
  (disconnect user_id websocket s = (Raise ValueError, s, []) ∧
   ∃ conns, active_connections s !! user_id = Some conns ∧
            remaining conns websocket = None) ∨
  (∃ s' tr,
     disconnect user_id websocket s = (Return (), s', tr) ∧
     ∀ chat_id,
       present s' chat_id = present s chat_id ∖ {[user_id]} ∧
       typing s' chat_id = typing s chat_id ∖ {[user_id]}).
Proof.
  destruct (drop_connection_cases user_id websocket s)
    as [[Hdrop Hwhy]|(s1 & t1 & Hdrop & Hr & Ht & Hre)].
  - left. split; [|done]. unfold disconnect.
    by rewrite (bind_Raise _ _ _ _ _ _ Hdrop).
  - right.
    destruct (disconnect_after_drop _ _ _ _ _ Hdrop Hr Ht Hre)
      as (s' & t2 & Hrun & _ & _ & _ & _ & Hpurged).
    by exists s', (t1 ++ t2).
Qed.

Lemma handle_message_unknown user_id d s :
  type_ d ∉ known_tags → handle_message user_id d s = (Return (), s, []).
Proof.
  unfold known_tags. rewrite !not_elem_of_cons. intros (?&?&?&?&?&_).
  unfold handle_message. cbn zeta.
  repeat (rewrite decide_False by done). done.
Qed.


(** [handle_message] never raises, and the only effects it performs are
    socket writes: it stores nothing. *)
Lemma handle_message_only_writes user_id d s :
  ∃ s' tr, handle_message user_id d s = (Return (), s', tr) ∧
           Forall is_write tr.
Proof.
  assert (∀ s0 m targets, Forall is_write (fan_out s0 m targets)) as Hfan.
  { intros s0 m targets. apply fan_out_Forall. intros ws ok.
    by exists ws, m, ok. }
  assert (∀ s0 : ConnectionManager,
    ∃ s' tr, (ret () : CM unit) s0 = (Return (), s', tr) ∧ Forall is_write tr)
    as Hret.
  { intros s0. exists s0, []. split; [done|]. by apply Forall_nil_2. }
  unfold handle_message. cbn zeta. repeat case_decide.
  - destruct (truthy_int (chat_id d)); [|apply Hret].
    rewrite join_chat_room_run. eexists _, _. split; [done|].
    by apply Forall_nil_2.
  - destruct (truthy_int (chat_id d)) as [c|]; [|apply Hret].
    rewrite leave_chat_room_run.
    destruct (decide (user_id ∈ present s c)); [|apply Hret]. cbn zeta.
    destruct (decide (user_id ∈ typing s c)).
    + rewrite set_typing_status_run. eexists _, _. split; [done|]. apply Hfan.
    + eexists _, _. split; [done|]. by apply Forall_nil_2.
  - destruct (chat_id d) as [c|]; [|apply Hret].
    rewrite set_typing_status_run. eexists _, _. split; [done|]. apply Hfan.
  - destruct (truthy_int (chat_id d)) as [c|]; [|apply Hret].
    destruct (truthy_str (content d)) as [text|]; [|apply Hret].
    rewrite broadcast_to_chat_run. eexists _, _. split; [done|]. apply Hfan.
  - destruct (truthy_int (message_id d)) as [mid|]; [|apply Hret].
    destruct (truthy_int (chat_id d)) as [c|]; [|apply Hret].
    rewrite broadcast_to_chat_run. eexists _, _. split; [done|]. apply Hfan.
  - apply Hret.
Qed.

(** [remove] raises exactly when the socket is not in the list. *)
Lemma remaining_is_Some conns ws :
  is_Some (remaining conns (Some ws)) ↔ ws ∈ conns.
Proof.
  cbn. split.
  - intros [l Hl]. by destruct (list_remove_Some _ _ _ Hl).
  - apply list_remove_elem_of.
Qed.

(** A frame that is JSON but not a dictionary makes [handle_message] raise:
    the receive loop ends and the endpoint goes on to its cleanup. *)
Lemma on_text_not_a_dict user_id text s :
  json_loads text = NotADict →
  on_text user_id text s = (Raise AttributeError, s, []).
Proof. intros H. unfold on_text. by rewrite H. Qed.

Lemma typing_set_active f s c : typing (set_active f s) c = typing s c.
Proof. done. Qed.

Lemma present_set_active f s c : present (set_active f s) c = present s c.
Proof. done. Qed.

Lemma typing_set_rooms f s c : typing (set_rooms f s) c = typing s c.
Proof. done. Qed.

Lemma present_set_typing f s c : present (set_typing f s) c = present s c.
Proof. done. Qed.

Lemma typing_stop_not_offline user_id e :
  typing_stop user_id e → ¬ offline_transition user_id e.
Proof.
  intros (ws & c & ok & ->) [H|(ws' & ok' & H)]; discriminate.
Qed.

(** For a sender other than user 0 the typing event goes to the other
    present users only. *)
Lemma typing_excludes_nonzero_sender chat_id user_id is_typing s :
  user_id ≠ 0 →
  ∃ s', set_typing_status chat_id user_id is_typing s =
          (Return (), s',
           fan_out s (Typing chat_id user_id is_typing)
             (filter (λ v, v ≠ user_id) (elements (present s chat_id)))).
Proof.
  intros Hne. rewrite set_typing_status_run. eexists. do 2 f_equal.
  unfold recipients. apply list_filter_iff. intros v.
  unfold excluded. cbn. rewrite decide_False by done.
  by rewrite bool_decide_eq_false.
Qed.

(** ** The sentences of the specification *)


(** C4, as the code has it: a [disconnect] that completes (it raises only
    when told to remove a socket the user does not have) leaves the user
    in no room and in no typing set; [join_chat_room] adds the user to the
    room whether or not it has a live connection, and leaves the registry
    alone. *)
Theorem disconnect_purges_join_adds s user_id websocket :
  (∀ conns, active_connections s !! user_id = Some conns →
            is_Some (remaining conns websocket)) →
  (∃ s' tr,
     disconnect user_id websocket s = (Return (), s', tr) ∧
     ∀ c, (user_id ∉ present s' c) ∧ (user_id ∉ typing s' c)) ∧
  (∀ c, ∃ s',
     join_chat_room user_id c s = (Return (), s', []) ∧
     user_id ∈ present s' c ∧ live s' user_id = live s user_id).
Proof.
  intros Hrem. split.
  - destruct (disconnect_cases user_id websocket s)
      as [[_ (conns & Hs & Hnone)]|(s' & tr & Hrun & Hp)].
    + destruct (Hrem conns Hs) as [l Hl]. congruence.
    + exists s', tr. split; [done|]. intros c.
      destruct (Hp c) as [-> ->]. set_solver.
  - intros c. eexists. rewrite join_chat_room_run. split; [done|].
    split; [|done]. rewrite present_insert, decide_True by done. set_solver.
Qed.

(** C5, as the code has it: [join_chat_room], [leave_chat_room],
    [disconnect] (whatever its outcome) and [set_typing_status] with
    [is_typing = False] keep every typing set inside the presence set of
    its room; [set_typing_status] with [is_typing = True] does when the
    user is present in the room. *)
Theorem typing_subset_preserved s :
  typing_subset s →
  (∀ u c, typing_subset (final (join_chat_room u c s))) ∧
  (∀ u c, typing_subset (final (leave_chat_room u c s))) ∧
  (∀ u ws, typing_subset (final (disconnect u ws s))) ∧
  (∀ u c, typing_subset (final (set_typing_status c u false s))) ∧
  (∀ u c, u ∈ present s c →
          typing_subset (final (set_typing_status c u true s))).
Proof.
  intros Hinv. split_and!.
  - intros u c k. rewrite join_chat_room_run. unfold final; cbn [fst snd].
    rewrite typing_set_rooms, present_insert. specialize (Hinv k).
    destruct (decide (c = k)) as [->|]; set_solver.
  - intros u c k. rewrite leave_chat_room_run.
    destruct (decide (u ∈ present s c)) as [Hp|Hp]; [|apply Hinv].
    cbn zeta. destruct (decide (u ∈ typing s c)) as [Ht|Ht].
    + rewrite set_typing_status_run. unfold final, typing_update; cbn [fst snd].
      rewrite typing_set_active, present_set_active, typing_insert,
        present_set_typing, typing_set_rooms, present_insert.
      specialize (Hinv k). destruct (decide (c = k)) as [->|]; set_solver.
    + unfold final; cbn [fst snd]. rewrite typing_set_rooms, present_insert.
      specialize (Hinv k). destruct (decide (c = k)) as [->|]; set_solver.
  - intros u ws k.
    destruct (disconnect_cases u ws s) as [[-> _]|(s' & tr & -> & Hp)].
    + apply Hinv.
    + unfold final; cbn [fst snd]. destruct (Hp k) as [-> ->].
      specialize (Hinv k). set_solver.
  - intros u c k. rewrite set_typing_status_run.
    unfold final, typing_update; cbn [fst snd].
    rewrite typing_set_active, present_set_active, typing_insert,
      present_set_typing.
    specialize (Hinv k). destruct (decide (c = k)) as [->|]; set_solver.
  - intros u c Hu k. rewrite set_typing_status_run.
    unfold final, typing_update; cbn [fst snd].
    rewrite typing_set_active, present_set_active, typing_insert,
      present_set_typing.
    specialize (Hinv k). destruct (decide (c = k)) as [->|]; set_solver.
Qed.

(** C6, as the code has it: when [disconnect] leaves the user at least one
    connection, it completes without any offline transition (it writes
    typing-stopped events only) and leaves the memberships of the other
    users alone, but it takes the user itself out of every room and of
    every typing set. *)
Theorem unregister_purges_with_siblings s user_id websocket conns c l :
  active_connections s !! user_id = Some conns →
  remaining conns websocket = Some (c :: l) →
  ∃ s' tr,
    disconnect user_id websocket s = (Return (), s', tr) ∧
    Forall (λ e, ¬ offline_transition user_id e) tr ∧
    ∀ chat_id,
      present s' chat_id = present s chat_id ∖ {[user_id]} ∧
      typing s' chat_id = typing s chat_id ∖ {[user_id]}.
Proof.
  intros Hs Hrem.
  pose proof (drop_connection_keep _ _ _ _ _ _ Hs Hrem) as Hdrop.
  destruct (disconnect_after_drop _ _ _ _ _ Hdrop eq_refl eq_refl eq_refl)
    as (s' & t2 & Hrun & _ & Htr & _ & _ & Hp).
  exists s', t2. split; [done|]. split; [|done].
  eapply Forall_impl; [exact Htr|]. apply typing_stop_not_offline.
Qed.

(** C8, as the code has it: [send_personal_message] never raises, also for
    a user without connection (it then does nothing); it writes once to
    every live connection of the user, in order, removes from the user's
    list exactly the connections whose write failed, and touches nothing
    else. *)
Theorem send_never_fails s user_id m :
  ∃ s',
    send_personal_message user_id m s =
      (Return (), s', attempts m (live s user_id)) ∧
    live s' user_id = keep_ok (live s user_id) ∧
    (∀ v, v ≠ user_id → live s' v = live s v) ∧
    chat_rooms s' = chat_rooms s ∧ typing_users s' = typing_users s.
Proof.
  eexists. rewrite send_personal_message_run. split; [done|].
  split_and!; try done.
  - unfold live. cbn. rewrite lookup_alter_eq.
    by destruct (active_connections s !! user_id).
  - intros v Hv. unfold live. cbn. by rewrite lookup_alter_ne.
Qed.

(** C9, as the code has it: a frame that is not JSON is echoed as a
    ["message"] event, once on every live connection of the sending user,
    and only the connections whose write failed leave the registry (rooms
    and typing sets are not touched); a dictionary whose tag is none of the
    known ones changes nothing and is not answered. *)
Theorem plain_text_echoed_unknown_ignored s user_id text :
  (json_loads text = JSONDecodeError →
   on_text user_id text s =
     (Return (), set_active (alter keep_ok user_id) s,
      attempts (PlainText text user_id) (live s user_id))) ∧
  (∀ d, json_loads text = Dict d → type_ d ∉ known_tags →
        on_text user_id text s = (Return (), s, [])).
Proof.
  split.
  - intros H. unfold on_text. rewrite H. apply send_personal_message_run.
  - intros d H Htag. unfold on_text. rewrite H.
    by apply handle_message_unknown.
Qed.

(** C10, on the code: the endpoint of a connection that is accepted and
    then closed ends with the closed socket still in the live list of its
    user (for a user other than 0, on whose sockets the cleanup itself
    writes nothing), and without any offline transition. *)
Theorem endpoint_keeps_closed_connection s websocket user_id :
  user_id ≠ 0 →
  ∃ s' tr,
    websocket_endpoint websocket user_id [] s = (Return (), s', tr) ∧
    live s' user_id = live s user_id ++ [websocket] ∧
    Forall (λ e, ¬ offline_transition user_id e) tr.
Proof.
  intros Hne. unfold websocket_endpoint.
  rewrite (bind_Return _ _ _ _ _ _ (connect_run websocket user_id s)).
  cbn zeta.
  set (s0 := set_active (insert user_id (live s user_id ++ [websocket])) s).
  set (s1 := set_active (drop_failed (status_targets s0 user_id)) s0).
  assert (active_connections s1 !! user_id =
          Some (live s user_id ++ [websocket])) as Hs1.
  { subst s1 s0. cbn. rewrite lookup_drop_failed, decide_False.
    - by rewrite lookup_insert_eq.
    - unfold status_targets. rewrite list_elem_of_filter. by intros [? _]. }
  unfold bind at 1. cbn [catch for_each bind raise ret].
  destruct (live s user_id ++ [websocket]) as [|c l] eqn:Hl.
  { by destruct (live s user_id). }
  pose proof (drop_connection_keep user_id None s1 _ c l Hs1 eq_refl) as Hdrop.
  destruct (disconnect_after_drop _ _ _ _ _ Hdrop eq_refl eq_refl eq_refl)
    as (s' & t2 & Hrun & _ & Htr & _ & Hun & _).
  cbn. rewrite Hrun. eexists _, _. split; [done|]. split.
  - unfold live. rewrite (Hun Hne). cbn. by rewrite lookup_insert_eq.
  - apply Forall_cons. split; [intros [?|(?&?&?)]; discriminate|].
    rewrite !Forall_app. split_and!.
    + destruct (redis s); [|by apply Forall_nil_2]. apply Forall_singleton.
      intros [?|(?&?&?)]; discriminate.
    + apply fan_out_Forall. intros ws ok [?|(?&?&?)]; discriminate.
    + by apply Forall_nil_2.
    + eapply Forall_impl; [exact Htr|]. apply typing_stop_not_offline.
Qed.

(** ** Further properties of the manager *)

Lemma elem_of_fan_out s m targets e :
  e ∈ fan_out s m targets ↔
  ∃ v ws, v ∈ targets ∧ ws ∈ live s v ∧ e = SendText ws m (send_ok ws).
Proof.
  unfold fan_out, attempts. split.
  - intros He. apply list_elem_of_In, in_concat in He as (l & Hl & He).
    apply list_elem_of_In, list_elem_of_fmap in Hl as (v & -> & Hv).
    apply list_elem_of_In, list_elem_of_fmap in He as (ws & -> & Hws).
    by exists v, ws.
  - intros (v & ws & Hv & Hws & ->). apply list_elem_of_In, in_concat.
    eexists. split; apply list_elem_of_In.
    + apply list_elem_of_fmap. by exists v.
    + apply list_elem_of_fmap. by exists ws.
Qed.

Lemma keep_ok_all_ok conns :
  (∀ ws, ws ∈ conns → send_ok ws = true) → keep_ok conns = conns.
Proof.
  unfold keep_ok. induction conns as [|c l IH]; intros H; [done|].
  rewrite filter_cons_True by (apply H; left). rewrite IH; [done|].
  intros ws Hws. apply H. by right.
Qed.

Lemma shrinks_dom a a' : shrinks a a' → dom a' = dom a.
Proof.
  intros H. apply set_eq. intros v. rewrite !elem_of_dom.
  destruct (H v) as [->| ->]; [done|]. by rewrite fmap_is_Some.
Qed.

Ltac state_simpl :=
  repeat first
    [ rewrite present_set_active | rewrite present_set_typing
    | rewrite typing_set_active | rewrite typing_set_rooms
    | rewrite present_insert | rewrite typing_insert ].

(** X1: joining is idempotent. [join_chat_room] never raises and performs
    no effect; it adds the user to the one room and leaves the other rooms
    alone, and joining again changes nothing. *)
Theorem join_idempotent s user_id c :
  ∃ s1,
    join_chat_room user_id c s = (Return (), s1, []) ∧
    join_chat_room user_id c s1 = (Return (), s1, []) ∧
    present s1 c = {[user_id]} ∪ present s c ∧
    (∀ c', c' ≠ c → present s1 c' = present s c') ∧
    active_connections s1 = active_connections s ∧
    typing_users s1 = typing_users s.
Proof.
  eexists. split; [apply join_chat_room_run|].
  split_and!; try done.
  - rewrite join_chat_room_run. do 2 f_equal. apply set_rooms_id. cbn.
    rewrite insert_insert_eq. f_equal.
    rewrite present_insert, decide_True by done. set_solver.
  - by rewrite present_insert, decide_True.
  - intros c' Hc. by rewrite present_insert, decide_False.
Qed.

(** X2: [leave_chat_room] never raises. Afterwards the user is not present
    in the room, and no longer flagged typing there when it was present;
    every other room is untouched; a user that was not present is left
    alone altogether, also when it is flagged typing in the room; leaving
    again changes nothing and writes nothing. *)
Theorem leave_net_effect s user_id c :
  ∃ s' tr,
    leave_chat_room user_id c s = (Return (), s', tr) ∧
    present s' c = present s c ∖ {[user_id]} ∧
    (user_id ∈ present s c → typing s' c = typing s c ∖ {[user_id]}) ∧
    (user_id ∉ present s c → s' = s ∧ tr = []) ∧
    (∀ c', c' ≠ c → present s' c' = present s c' ∧ typing s' c' = typing s c') ∧
    leave_chat_room user_id c s' = (Return (), s', []).
Proof.
  assert (∀ s0, user_id ∉ present s0 c →
            leave_chat_room user_id c s0 = (Return (), s0, [])) as Hnoop.
  { intros s0 H0. rewrite leave_chat_room_run. by rewrite decide_False. }
  rewrite leave_chat_room_run.
  destruct (decide (user_id ∈ present s c)) as [Hp|Hp].
  - cbn zeta. destruct (decide (user_id ∈ typing s c)) as [Ht|Ht].
    + rewrite set_typing_status_run. eexists _, _. split; [done|].
      unfold typing_update. split_and!.
      * state_simpl. by rewrite decide_True.
      * intros _. state_simpl. by rewrite decide_True.
      * done.
      * intros c' Hc. state_simpl. by rewrite !decide_False.
      * apply Hnoop. state_simpl. rewrite decide_True by done. set_solver.
    + eexists _, _. split; [done|]. split_and!.
      * state_simpl. by rewrite decide_True.
      * intros _. state_simpl. symmetry.
        by apply difference_disjoint_L, disjoint_singleton_r.
      * done.
      * intros c' Hc. state_simpl. by rewrite decide_False.
      * apply Hnoop. state_simpl. rewrite decide_True by done. set_solver.
  - exists s, []. split_and!; try done.
    + symmetry. by apply difference_disjoint_L, disjoint_singleton_r.
    + by apply Hnoop.
Qed.

(** X3: a broadcast to a room never raises and writes the message exactly
    on the live connections of the users present in the room that are not
    excluded: every such connection is written to, and every write of the
    run is one of these. It leaves rooms and typing sets alone. *)
Theorem broadcast_targets_present_only s c m e :
  ∃ s' tr,
    broadcast_to_chat c m e s = (Return (), s', tr) ∧
    (∀ ef, ef ∈ tr ↔
           ∃ v ws, v ∈ present s c ∧ excluded e v = false ∧
                   ws ∈ live s v ∧ ef = SendText ws m (send_ok ws)) ∧
    chat_rooms s' = chat_rooms s ∧ typing_users s' = typing_users s.
Proof.
  eexists _, _. split; [apply broadcast_to_chat_run|]. split; [|done].
  intros ef. rewrite elem_of_fan_out. split.
  - intros (v & ws & Hv & Hws & ->). apply elem_of_recipients in Hv as [? ?].
    by exists v, ws.
  - intros (v & ws & Hv & He & Hws & ->). exists v, ws.
    split; [|done]. by apply elem_of_recipients.
Qed.

(** X4: a broadcast whose writes all succeed changes nothing in the
    manager. *)
Theorem broadcast_all_ok_keeps_state s c m e :
  (∀ v ws, v ∈ present s c → excluded e v = false → ws ∈ live s v →
           send_ok ws = true) →
  broadcast_to_chat c m e s = (Return (), s, fan_out s m (recipients s c e)).
Proof.
  intros Hok. rewrite broadcast_to_chat_run. do 2 f_equal.
  apply set_active_id. apply map_eq. intros v. rewrite lookup_drop_failed.
  destruct (decide (v ∈ recipients s c e)) as [Hv|]; [|done].
  apply elem_of_recipients in Hv as [Hv He].
  destruct (active_connections s !! v) as [conns|] eqn:Hc; [|done]. cbn.
  f_equal. apply keep_ok_all_ok. intros ws Hws.
  apply (Hok v ws Hv He). unfold live. by rewrite Hc.
Qed.

(** X5: for every event whose entries have the types the manager's
    signatures annotate (the tag and the content strings, the chat id and
    the message id integers, the typing flag a boolean, each of them
    possibly absent), [handle_message] never raises and performs socket
    writes only; it changes the registry only by dropping the connections
    whose write failed, so that the set of registered users stays the same
    (a user whose sockets all failed keeps an empty entry). Events with
    entries of other types, such as a list for the chat id, on which the
    dictionary lookups of the source raise [TypeError], are not events of
    type [data] and are not spoken of. *)
Theorem handle_message_keeps_users_registered user_id d s :
  ∃ s' tr,
    handle_message user_id d s = (Return (), s', tr) ∧
    Forall is_write tr ∧
    shrinks (active_connections s) (active_connections s') ∧
    dom (active_connections s') = dom (active_connections s).
Proof.
  cut (∃ s' tr, handle_message user_id d s = (Return (), s', tr) ∧
                Forall is_write tr ∧
                shrinks (active_connections s) (active_connections s')).
  { intros (s' & tr & H1 & H2 & H3). exists s', tr.
    split_and!; try done. by apply shrinks_dom. }
  assert (∀ s0 m targets, Forall is_write (fan_out s0 m targets)) as Hfan.
  { intros s0 m targets. apply fan_out_Forall. intros ws ok.
    by exists ws, m, ok. }
  assert (∃ s' tr, (Return (), s, @nil effect) = (Return (), s', tr) ∧
                   Forall is_write tr ∧
                   shrinks (active_connections s) (active_connections s'))
    as Hret.
  { exists s, []. split_and!; [done|by apply Forall_nil_2|apply shrinks_refl]. }
  unfold handle_message. cbn zeta. repeat case_decide.
  - destruct (truthy_int (chat_id d)); [|apply Hret].
    rewrite join_chat_room_run. eexists _, _.
    split_and!; [done|by apply Forall_nil_2|apply shrinks_refl].
  - destruct (truthy_int (chat_id d)) as [c|]; [|apply Hret].
    rewrite leave_chat_room_run.
    destruct (decide (user_id ∈ present s c)); [|apply Hret]. cbn zeta.
    destruct (decide (user_id ∈ typing s c)).
    + rewrite set_typing_status_run. eexists _, _.
      split_and!; [done|apply Hfan|apply shrinks_drop_failed].
    + eexists _, _.
      split_and!; [done|by apply Forall_nil_2|apply shrinks_refl].
  - destruct (chat_id d) as [c|]; [|apply Hret].
    rewrite set_typing_status_run. eexists _, _.
    split_and!; [done|apply Hfan|apply shrinks_drop_failed].
  - destruct (truthy_int (chat_id d)) as [c|]; [|apply Hret].
    destruct (truthy_str (content d)) as [text|]; [|apply Hret].
    rewrite broadcast_to_chat_run. eexists _, _.
    split_and!; [done|apply Hfan|apply shrinks_drop_failed].
  - destruct (truthy_int (message_id d)) as [mid|]; [|apply Hret].
    destruct (truthy_int (chat_id d)) as [c|]; [|apply Hret].
    rewrite broadcast_to_chat_run. eexists _, _.
    split_and!; [done|apply Hfan|apply shrinks_drop_failed].
  - apply Hret.
Qed.

(** X6: [disconnect] of a registered user with a socket that is not in its
    list raises [ValueError] before anything is changed: the user keeps its
    connections, its rooms and its typing flags, and nothing is written. *)
Theorem disconnect_unknown_socket_raises s user_id ws conns :
  active_connections s !! user_id = Some conns →
  ws ∉ conns →
  disconnect user_id (Some ws) s = (Raise ValueError, s, []).
Proof.
  intros Hs Hws. unfold disconnect.
  apply bind_Raise. apply (drop_connection_raise _ _ _ conns Hs). cbn.
  destruct (list_remove ws conns) as [l|] eqn:Hl; [|done].
  by destruct (list_remove_Some _ _ _ Hl).
Qed.

(** X7: when [disconnect] leaves the user without connection, it completes;
    the entry of the user is deleted from the registry, the offline status
    is recorded in Redis when there is one, and the ["offline"] status is
    written on every live connection of every other registered user. *)
Theorem disconnect_last_goes_offline s user_id websocket conns :
  active_connections s !! user_id = Some conns →
  remaining conns websocket = Some [] →
  ∃ s' tr,
    disconnect user_id websocket s = (Return (), s', tr) ∧
    active_connections s' !! user_id = None ∧
    (redis s = true → RedisStatus user_id false ∈ tr) ∧
    (∀ v ws, v ≠ user_id → ws ∈ live s v →
             SendText ws (UserStatus user_id "offline") (send_ok ws) ∈ tr).
Proof.
  intros Hs Hrem.
  pose proof (drop_connection_last _ _ _ _ Hs Hrem) as Hdrop. cbn zeta in Hdrop.
  destruct (disconnect_after_drop _ _ _ _ _ Hdrop eq_refl eq_refl eq_refl)
    as (s' & t2 & Hrun & Hsh & _ & _ & _ & _).
  eexists _, _. split; [exact Hrun|]. split_and!.
  - destruct (Hsh user_id) as [H|H]; rewrite H; cbn;
      rewrite lookup_drop_failed, lookup_delete_eq; by case_decide.
  - intros ->. rewrite !elem_of_app. left. left. by left.
  - intros v ws Hv Hws. rewrite !elem_of_app. left. right.
    apply elem_of_fan_out. exists v, ws. split_and!; [| |done].
    + unfold status_targets. apply list_elem_of_filter. split; [done|].
      apply elem_of_elements, elem_of_dom. cbn.
      rewrite lookup_delete_ne by done. unfold live in Hws.
      destruct (active_connections s !! v); [done|].
      by apply elem_of_nil in Hws.
    + unfold live. cbn. by rewrite lookup_delete_ne.
Qed.

(** X8: [connect] never raises. It accepts the socket first, appends it to
    the list of the user, and writes the ["online"] status on every live
    connection of every other registered user, and on no other connection,
    whether or not the user was connected already; rooms and typing sets
    are untouched. *)
Theorem connect_announces s websocket user_id :
  ∃ s' tr,
    connect websocket user_id s = (Return (), s', Accept websocket :: tr) ∧
    live s' user_id = live s user_id ++ [websocket] ∧
    (∀ ws m ok, SendText ws m ok ∈ tr ↔
       m = UserStatus user_id "online" ∧ ok = send_ok ws ∧
       ∃ v, v ≠ user_id ∧ ws ∈ live s v) ∧
    chat_rooms s' = chat_rooms s ∧ typing_users s' = typing_users s.
Proof.
  rewrite connect_run. cbn zeta. eexists _, _. split; [done|].
  set (s1 := set_active (insert user_id (live s user_id ++ [websocket])) s).
  assert (∀ v, v ≠ user_id → live s1 v = live s v) as Hlive.
  { intros v Hv. unfold live. cbn. by rewrite lookup_insert_ne. }
  assert (∀ v ws, v ≠ user_id → ws ∈ live s v → v ∈ status_targets s1 user_id)
    as Htarget.
  { intros v ws Hv Hws. unfold status_targets.
    apply list_elem_of_filter. split; [done|].
    apply elem_of_elements, elem_of_dom. cbn. rewrite lookup_insert_ne by done.
    unfold live in Hws. destruct (active_connections s !! v); [done|].
    by apply elem_of_nil in Hws. }
  split_and!; try done.
  - unfold live. cbn. rewrite lookup_drop_failed, decide_False.
    + by rewrite lookup_insert_eq.
    + unfold status_targets. rewrite list_elem_of_filter. by intros [? _].
  - intros ws m ok. rewrite elem_of_app. split.
    + intros [Hr|Hf].
      * destruct (redis s); [|by apply elem_of_nil in Hr].
        apply list_elem_of_singleton in Hr. discriminate.
      * apply elem_of_fan_out in Hf as (v & ws' & Hv & Hws & Heq).
        injection Heq as -> -> ->. split_and!; try done.
        unfold status_targets in Hv. apply list_elem_of_filter in Hv as [Hv _].
        exists v. split; [done|]. by rewrite <- Hlive.
    + intros (-> & -> & v & Hv & Hws). right. apply elem_of_fan_out.
      exists v, ws. split_and!; [by eapply Htarget|by rewrite Hlive|done].
Qed.

(** X9: connecting a user that was not registered and disconnecting the
    same socket again never raises and leaves the user unregistered, in no
    room and in no typing set; the other users lose at most the
    connections whose write failed. *)
Theorem connect_disconnect_round_trip s websocket user_id :
  active_connections s !! user_id = None →
  ∃ s' tr,
    (connect websocket user_id >> disconnect user_id (Some websocket)) s =
      (Return (), s', tr) ∧
    active_connections s' !! user_id = None ∧
    shrinks (active_connections s) (active_connections s') ∧
    ∀ c, present s' c = present s c ∖ {[user_id]} ∧
         typing s' c = typing s c ∖ {[user_id]}.
Proof.
  intros Hs.
  rewrite (bind_Return _ _ _ _ _ _ (connect_run websocket user_id s)).
  cbn zeta. unfold live at 1 2. rewrite Hs. cbn [default app].
  set (s0 := set_active (insert user_id [websocket]) s).
  set (s1 := set_active (drop_failed (status_targets s0 user_id)) s0).
  assert (user_id ∉ status_targets s0 user_id) as Hnot.
  { unfold status_targets. rewrite list_elem_of_filter. by intros [? _]. }
  assert (active_connections s1 !! user_id = Some [websocket]) as Hs1.
  { subst s1 s0. cbn. rewrite lookup_drop_failed, decide_False by done.
    by rewrite lookup_insert_eq. }
  assert (remaining [websocket] (Some websocket) = Some []) as Hrem.
  { cbn. by rewrite decide_True. }
  pose proof (drop_connection_last _ _ _ _ Hs1 Hrem) as Hdrop.
  cbn zeta in Hdrop.
  destruct (disconnect_after_drop _ _ _ _ _ Hdrop eq_refl eq_refl eq_refl)
    as (s' & t2 & Hrun & Hsh & _ & _ & _ & Hp).
  rewrite Hrun. eexists _, _. split; [done|].
  assert (shrinks (active_connections s) (active_connections s')) as Hall.
  { eapply shrinks_trans; [|exact Hsh]. intros v. cbn.
    rewrite lookup_drop_failed.
    destruct (decide (user_id = v)) as [<-|Hv].
    - rewrite lookup_delete_eq, Hs. case_decide; auto.
    - rewrite lookup_delete_ne by done. subst s1 s0. cbn.
      rewrite lookup_drop_failed, lookup_insert_ne by done.
      repeat case_decide; auto.
      right. destruct (active_connections s !! v); cbn; [|done].
      by rewrite keep_ok_idemp. }
  split_and!; [|done|exact Hp].
  destruct (Hall user_id) as [H|H]; rewrite H, Hs; done.
Qed.

(** X10: whatever frames it receives, the endpoint returns normally (an
    exception in the loop ends the loop only), and its cleanup leaves the
    user in no room and in no typing set. *)
Theorem endpoint_always_cleans_up s websocket user_id frames :
  ∃ s' tr,
    websocket_endpoint websocket user_id frames s = (Return (), s', tr) ∧
    ∀ c, (user_id ∉ present s' c) ∧ (user_id ∉ typing s' c).
Proof.
  unfold websocket_endpoint.
  rewrite (bind_Return _ _ _ _ _ _ (connect_run websocket user_id s)).
  cbn zeta. set (s1 := set_active _ _).
  assert (∃ s2 t2,
    catch (for_each frames (on_text user_id) >> raise WebSocketDisconnect)
          (λ _, ret ()) s1 = (Return (), s2, t2)) as (s2 & t2 & Hloop).
  { unfold catch, bind.
    destruct (for_each frames (on_text user_id) s1) as [[[[]|e] s2] t2];
      cbn; by eexists _, _. }
  rewrite (bind_Return _ _ _ _ _ _ Hloop).
  destruct (disconnect_cases user_id None s2)
    as [[_ (conns & _ & Hnone)]|(s' & tr & Hrun & Hp)]; [done|].
  rewrite Hrun. eexists _, _. split; [done|].
  intros c. destruct (Hp c) as [-> ->]. set_solver.
Qed.

Lemma for_each_app {S A} (l1 l2 : list A) (body : A → M S unit) s :
  for_each (l1 ++ l2) body s = (for_each l1 body >> for_each l2 body) s.
Proof.
  revert s. induction l1 as [|x l1 IH]; intros s; cbn.
  - unfold bind, ret. by destruct (for_each l2 body s) as [[? ?] ?].
  - unfold bind. destruct (body x s) as [[[[]|e] s1] t1]; [|done].
    rewrite IH. unfold bind.
    destruct (for_each l1 body s1) as [[[[]|e] s2] t2]; [|done].
    destruct (for_each l2 body s2) as [[? ?] ?]. by rewrite (assoc_L (++)).
Qed.

Lemma bind_ext {S A B} (m : M S A) (f g : A → M S B) s :
  (∀ a s1, f a s1 = g a s1) → bind m f s = bind m g s.
Proof.
  intros H. unfold bind. destruct (m s) as [[[a|e] s1] t1]; [|done].
  by rewrite H.
Qed.

Lemma bind_ext_l {S A B} (m m' : M S A) (f : A → M S B) s :
  m s = m' s → bind m f s = bind m' f s.
Proof. intros H. unfold bind. by rewrite H. Qed.

Lemma catch_ext {S A} (m m' : M S A) (h : exn → M S A) s :
  m s = m' s → catch m h s = catch m' h s.
Proof. intros H. unfold catch. by rewrite H. Qed.

Lemma for_each_raise {S A} (pre rest : list A) (x : A) (body : A → M S unit) s :
  (∀ s1, ∃ e, body x s1 = (Raise e, s1, [])) →
  for_each (pre ++ x :: rest) body s = for_each (pre ++ [x]) body s.
Proof.
  intros Hx. rewrite !for_each_app. apply bind_ext. intros _ s1. cbn.
  unfold bind. by destruct (Hx s1) as [e ->].
Qed.

(** X11: a frame that is JSON but not a dictionary ends the session: the
    frames received after it are never handled. *)
Theorem frames_after_bad_frame_dropped s websocket user_id pre bad rest :
  json_loads bad = NotADict →
  websocket_endpoint websocket user_id (pre ++ bad :: rest) s =
  websocket_endpoint websocket user_id (pre ++ [bad]) s.
Proof.
  intros Hbad. unfold websocket_endpoint.
  apply bind_ext. intros _ s1. apply bind_ext_l, catch_ext, bind_ext_l.
  apply for_each_raise. intros s2. exists AttributeError.
  by apply on_text_not_a_dict.
Qed.

(** X12: an event without chat id, or with chat id 0, is ignored by every
    branch but [typing]: nothing changes and nothing is written. The
    [typing] branch tests the chat id against [None] only: a typing event
    for chat id 0 flags the user as typing in room 0. *)
Theorem falsy_chat_id_ignored s user_id d :
  (truthy_int (chat_id d) = None → type_ d ≠ Some "typing" →
   handle_message user_id d s = (Return (), s, [])) ∧
  (type_ d = Some "typing" → chat_id d = Some 0 → is_typing d = Some true →
   user_id ∈ typing (final (handle_message user_id d s)) 0).
Proof.
  split.
  - intros Hc Ht. unfold handle_message. cbn zeta. rewrite Hc.
    repeat case_decide; try done.
    by destruct (truthy_int (message_id d)).
  - intros Ht Hc Hty. unfold handle_message. cbn zeta. rewrite Ht, Hc, Hty.
    repeat (rewrite decide_False by discriminate).
    rewrite decide_True by done. rewrite set_typing_status_run.
    unfold final, typing_update. cbn [fst snd default]. state_simpl.
    rewrite decide_True by done. set_solver.
Qed.

(** X13: a read receipt of a reader other than user 0 is written on the
    live connections of the other users present in the room, never on the
    reader's own, and changes neither rooms nor typing sets. *)
Theorem read_receipt_to_others s user_id d mid c :
  user_id ≠ 0 →
  type_ d = Some "message_read" →
  truthy_int (message_id d) = Some mid →
  truthy_int (chat_id d) = Some c →
  ∃ s',
    handle_message user_id d s =
      (Return (), s',
       fan_out s (MessageRead mid c user_id)
         (filter (λ v, v ≠ user_id) (elements (present s c)))) ∧
    chat_rooms s' = chat_rooms s ∧ typing_users s' = typing_users s.
Proof.
  intros Hne Ht Hm Hc. unfold handle_message. cbn zeta. rewrite Ht, Hm, Hc.
  repeat (rewrite decide_False by discriminate). rewrite decide_True by done.
  rewrite broadcast_to_chat_run.
  assert (recipients s c (Some user_id) =
          filter (λ v, v ≠ user_id) (elements (present s c))) as ->.
  { unfold recipients. apply list_filter_iff. intros v.
    unfold excluded. cbn. rewrite decide_False by done.
    by rewrite bool_decide_eq_false. }
  by eexists.
Qed.

(** X14: starting and then stopping typing leaves the typing sets as they
    were, up to the user itself: the user is flagged in no typing set of
    the room afterwards, presence is untouched, and every other room keeps
    its typing set. *)
Theorem typing_round_trip s user_id c :
  let s2 := final (set_typing_status c user_id false
                     (final (set_typing_status c user_id true s))) in
  typing s2 c = typing s c ∖ {[user_id]} ∧
  (∀ c', c' ≠ c → typing s2 c' = typing s c') ∧
  (∀ c', present s2 c' = present s c').
Proof.
  cbn zeta. rewrite (set_typing_status_run c user_id true s).
  unfold final. cbn [fst snd]. rewrite set_typing_status_run.
  cbn [fst snd]. unfold typing_update. split_and!.
  - state_simpl. rewrite !decide_True by done. set_solver.
  - intros c' Hc. state_simpl. by rewrite !decide_False.
  - done.
Qed.

(** X15: a send on which every socket of the user fails leaves the user
    registered with an empty list, without any offline transition; the
    cleanup of the endpoint, [disconnect(user_id)] without socket, then
    deletes the entry and records the user offline. *)
Theorem lazy_removal_then_cleanup_goes_offline s user_id m conns :
  active_connections s !! user_id = Some conns →
  (∀ ws, ws ∈ conns → send_ok ws = false) →
  ∃ s1 s2 tr,
    send_personal_message user_id m s = (Return (), s1, attempts m conns) ∧
    active_connections s1 !! user_id = Some [] ∧
    disconnect user_id None s1 = (Return (), s2, tr) ∧
    active_connections s2 !! user_id = None ∧
    (redis s = true → RedisStatus user_id false ∈ tr).
Proof.
  intros Hs Hfail. rewrite send_personal_message_run.
  unfold live. rewrite Hs. cbn [default].
  set (s1 := set_active (alter keep_ok user_id) s).
  assert (active_connections s1 !! user_id = Some []) as Hs1.
  { subst s1. cbn. rewrite lookup_alter_eq, Hs. cbn. f_equal.
    unfold keep_ok. clear Hs. induction conns as [|c l IH]; [done|].
    rewrite filter_cons, decide_False.
    - apply IH. intros ws Hws. apply Hfail. by right.
    - rewrite (Hfail c) by left. done. }
  pose proof (drop_connection_last user_id None s1 [] Hs1 eq_refl) as Hdrop.
  cbn zeta in Hdrop.
  destruct (disconnect_after_drop _ _ _ _ _ Hdrop eq_refl eq_refl eq_refl)
    as (s2 & t2 & Hrun & Hsh & _ & _ & _ & _).
  exists s1, s2. eexists. split_and!; [done|done|exact Hrun| |].
  - destruct (Hsh user_id) as [H|H]; rewrite H; cbn;
      rewrite lookup_drop_failed, lookup_delete_eq; by case_decide.
  - intros Hr. rewrite !elem_of_app. left. left.
    change (redis s1) with (redis s). rewrite Hr. by left.
Qed.

End Manager.

(** ** The route *)

(** The route refuses a user the membership table does not let post, before
    it adds or commits anything. *)
Lemma send_message_forbidden new_id now commit_ok touch_ok message_data user db :
  Messages.authorized db user (Messages.chat_id message_data) = false →
  Messages.send_message new_id now commit_ok touch_ok message_data user db =
    (Raise (HTTPException 403), db, []).
Proof.
  unfold Messages.authorized, Messages.send_message, bind, get.
  rewrite bool_decide_eq_false. intros H.
  destruct (find _ _); [|done]. destruct H. by eexists.
Qed.

(** When the first commit fails, nothing is stored (and the route has no
    way to broadcast). *)
Lemma send_message_commit_failure new_id now touch_ok message_data user db :
  Messages.authorized db user (Messages.chat_id message_data) = true →
  Messages.reply_to_message_id message_data = None →
  Messages.send_message new_id now false touch_ok message_data user db =
    (Raise SQLAlchemyError, db, []).
Proof.
  unfold Messages.authorized, Messages.send_message, bind, get.
  rewrite bool_decide_eq_true. intros [row Hrow] Hreply.
  rewrite Hrow, Hreply. done.
Qed.

(** ** Runs on concrete managers *)

(** The managers used below are reached from a fresh one through the
    operations the endpoint performs: connections are accepted and
    [join_chat] events are handled. *)
Lemma room_1_2_reachable :
  final ((connect all_ok 10 1 >> connect all_ok 20 2 >>
          handle_message all_ok 1 (join_event 5) >>
          handle_message all_ok 2 (join_event 5)) (init false)) = room_1_2.
Proof. vm_compute. reflexivity. Qed.

Lemma room_0_2_reachable :
  final ((connect all_ok 10 0 >> connect all_ok 20 2 >>
          handle_message all_ok 0 (join_event 5) >>
          handle_message all_ok 2 (join_event 5)) (init false)) = room_0_2.
Proof. vm_compute. reflexivity. Qed.

Lemma two_tabs_reachable :
  final ((connect all_ok 10 1 >> connect all_ok 11 1 >>
          handle_message all_ok 1 (join_event 5)) (init false)) = two_tabs.
Proof. vm_compute. reflexivity. Qed.

Lemma room_2_outsider_9_reachable :
  final ((connect all_ok 20 2 >> connect all_ok 90 9 >>
          handle_message all_ok 2 (join_event 5)) (init false)) =
    room_2_outsider_9.
Proof. vm_compute. reflexivity. Qed.


(** A send of user 9, whom the membership table does not let post to chat
    5, is no successful send, whatever the store is asked to return. *)
Lemma send_of_outsider_not_successful new_id now text row :
  ¬ successful_send only_2_in_5 new_id now 9 (message_event 5 text) 5 text row.
Proof. intros (_ & _ & _ & db' & H). discriminate. Qed.



(** C2, on the code: the [message] event of user 1 reaches the connection
    of user 2 as a [new_message] although the run commits no row. *)
Theorem ws_message_not_persisted :
  match handle_message all_ok 1 (message_event 5 "hello") room_1_2 with
  | (o, _, tr) =>
      o = Return () ∧
      SendText 20 (NewMessage 5 1 "hello") true ∈ tr ∧
      ∀ row, DbCommit row ∉ tr
  end.
Proof.
  destruct (handle_message all_ok 1 (message_event 5 "hello") room_1_2)
    as [[o s'] tr] eqn:E.
  vm_compute in E. injection E as <- <- <-.
  split; [done|]. split; [set_solver|]. intros row. set_solver.
Qed.

(** C3, on the code: user 9, whom the membership table does not let post to
    chat 5 and whom the route refuses with status 403, has its [message]
    event delivered to user 2 by the WebSocket handler. *)
Theorem outsider_ws_message_broadcast :
  Messages.authorized only_2_in_5 9 5 = false ∧
  Messages.send_message 501 1000 true true
    {| Messages.content := "spam"; Messages.chat_id := 5;
       Messages.reply_to_message_id := None |} 9 only_2_in_5 =
    (Raise (HTTPException 403), only_2_in_5, []) ∧
  match handle_message all_ok 9 (message_event 5 "spam") room_2_outsider_9 with
  | (o, _, tr) =>
      o = Return () ∧ SendText 20 (NewMessage 5 9 "spam") true ∈ tr
  end.
Proof.
  split; [reflexivity|]. split; [reflexivity|].
  destruct (handle_message all_ok 9 (message_event 5 "spam") room_2_outsider_9)
    as [[o s'] tr] eqn:E.
  vm_compute in E. injection E as <- <- <-.
  split; [done|set_solver].
Qed.

Lemma disconnect_purges_join_adds_witness :
  (∀ conns, active_connections two_tabs !! 1 = Some conns →
            is_Some (remaining conns (Some 10%nat))) ∧
  (∃ s' tr,
     disconnect all_ok 1 (Some 10%nat) two_tabs = (Return (), s', tr) ∧
     ∀ c, (1 ∉ present s' c) ∧ (1 ∉ typing s' c)) ∧
  (∀ c, ∃ s',
     join_chat_room 1 c two_tabs = (Return (), s', []) ∧
     1 ∈ present s' c ∧ live s' 1 = live two_tabs 1).
Proof.
  assert (∀ conns, active_connections two_tabs !! 1 = Some conns →
                   is_Some (remaining conns (Some 10%nat))) as H.
  { intros conns Hc. vm_compute in Hc. injection Hc as <-.
    exists [11%nat]. reflexivity. }
  split; [exact H|].
  exact (disconnect_purges_join_adds all_ok two_tabs 1 (Some 10%nat) H).
Defined.

(** C4, as the specification states it, fails on the code: on the fresh
    manager, where no user has a connection and every room is empty,
    [join_chat_room 1 5] is not a no-op and puts the connectionless user 1
    in room 5. *)
Lemma join_without_connection_counterexample :
  connectionless_absent (init false) ∧
  ¬ spec_join_noop (init false) 1 5 ∧
  ¬ connectionless_absent (final (join_chat_room 1 5 (init false))).
Proof.
  split; [|split].
  - intros u c _. unfold present, typing. cbn. rewrite !lookup_empty. cbn.
    split; apply not_elem_of_empty.
  - intros H. specialize (H eq_refl).
    apply (f_equal (λ r, bool_decide (1 ∈ present (final r) 5))) in H.
    vm_compute in H. discriminate.
  - intros H. destruct (H 1 5 eq_refl) as [Hp _]. apply Hp.
    apply (bool_decide_unpack _). vm_compute. exact I.
Qed.

Lemma typing_subset_preserved_witness :
  typing_subset room_1_2 ∧
  (∀ u c, typing_subset (final (join_chat_room u c room_1_2))) ∧
  (∀ u c, typing_subset (final (leave_chat_room all_ok u c room_1_2))) ∧
  (∀ u ws, typing_subset (final (disconnect all_ok u ws room_1_2))) ∧
  (∀ u c, typing_subset (final (set_typing_status all_ok c u false room_1_2))) ∧
  (∀ u c, u ∈ present room_1_2 c →
          typing_subset (final (set_typing_status all_ok c u true room_1_2))).
Proof.
  assert (typing_subset room_1_2) as H.
  { intros c. unfold typing. cbn. rewrite lookup_empty. cbn.
    apply empty_subseteq. }
  split; [exact H|].
  exact (typing_subset_preserved all_ok room_1_2 H).
Defined.

(** C5, as the specification states it, fails on the code: on the fresh
    manager, where the inclusion holds, [set_typing_status 5 1 True] flags
    user 1 as typing in room 5 although it is not present there. *)
Lemma typing_without_presence_counterexample :
  typing_subset (init false) ∧
  ¬ typing_subset (final (set_typing_status all_ok 5 1 true (init false))).
Proof.
  split.
  - intros c. unfold typing. cbn. rewrite lookup_empty. cbn.
    apply empty_subseteq.
  - intros H. specialize (H 5).
    assert (1 ∈ typing (final (set_typing_status all_ok 5 1 true (init false))) 5)
      as Ht by (apply (bool_decide_unpack _); vm_compute; exact I).
    apply H in Ht. revert Ht. apply (bool_decide_unpack _). vm_compute. exact I.
Qed.

Lemma unregister_purges_with_siblings_witness :
  active_connections two_tabs !! 1 = Some [10%nat; 11%nat] ∧
  remaining [10%nat; 11%nat] (Some 10%nat) = Some [11%nat] ∧
  ∃ s' tr,
    disconnect all_ok 1 (Some 10%nat) two_tabs = (Return (), s', tr) ∧
    Forall (λ e, ¬ offline_transition 1 e) tr ∧
    ∀ chat_id,
      present s' chat_id = present two_tabs chat_id ∖ {[1]} ∧
      typing s' chat_id = typing two_tabs chat_id ∖ {[1]}.
Proof.
  split; [reflexivity|]. split; [reflexivity|].
  apply (unregister_purges_with_siblings all_ok two_tabs 1 (Some 10%nat)
           [10%nat; 11%nat] 11%nat []); reflexivity.
Defined.

(** C6, as the specification states it, fails on the code: user 1 has the
    connections 10 and 11 and is in room 5; after [disconnect 1 10] it
    still has connection 11 but is no longer in room 5. *)
Lemma unregister_frame_counterexample :
  ¬ spec_unregister_frame all_ok two_tabs 1 10.
Proof.
  unfold spec_unregister_frame.
  destruct (disconnect all_ok 1 (Some 10%nat) two_tabs) as [[o s'] tr] eqn:E.
  vm_compute in E. injection E as <- <- <-.
  intros H. destruct H as [H _]; [done|by vm_compute|].
  destruct (H 5) as [[_ Hp] _]. revert Hp.
  assert (1 ∈ present two_tabs 5) as Hin
    by (apply (bool_decide_unpack _); vm_compute; exact I).
  intros Hp. specialize (Hp Hin). revert Hp.
  apply (bool_decide_unpack _). vm_compute. exact I.
Qed.

(** C7, on the code: users 0 and 2 are in room 5; the typing event of user
    0 is written to connection 10, which is user 0's own. *)
Theorem typing_echoed_to_user_0 :
  live room_0_2 0 = [10%nat] ∧
  match set_typing_status all_ok 5 0 true room_0_2 with
  | (o, _, tr) =>
      o = Return () ∧ SendText 10 (Typing 5 0 true) true ∈ tr
  end.
Proof.
  split; [reflexivity|].
  destruct (set_typing_status all_ok 5 0 true room_0_2) as [[o s'] tr] eqn:E.
  vm_compute in E. injection E as <- <- <-.
  split; [done|set_solver].
Qed.

(** C8, as the specification states it, fails on the code: a send to user
    1, who has no connection, returns normally. *)
Lemma send_without_connection_counterexample :
  ¬ spec_send all_ok (init false) 1 (PlainText "hi" 1).
Proof.
  unfold spec_send.
  destruct (send_personal_message all_ok 1 (PlainText "hi" 1) (init false))
    as [[o s'] tr] eqn:E.
  vm_compute in E. injection E as <- <- <-.
  intros (_ & _ & [_ H]). destruct (H eq_refl) as [e He]. discriminate.
Qed.

Lemma plain_text_echoed_unknown_ignored_witness :
  (no_json "hi" = JSONDecodeError ∧
   on_text all_ok no_json 1 "hi" two_tabs =
     (Return (), set_active (alter (keep_ok all_ok) 1) two_tabs,
      attempts all_ok (PlainText "hi" 1) (live two_tabs 1))) ∧
  ((type_ join_room_event ∉ known_tags) ∧
   on_text all_ok (λ _, Dict join_room_event) 1 "{}" two_tabs =
     (Return (), two_tabs, [])).
Proof.
  split.
  - split; [reflexivity|].
    apply (proj1 (plain_text_echoed_unknown_ignored all_ok no_json two_tabs 1 "hi")).
    reflexivity.
  - assert (type_ join_room_event ∉ known_tags) as H.
    { unfold known_tags. rewrite !not_elem_of_cons.
      repeat (split; [discriminate|]). apply not_elem_of_nil. }
    split; [exact H|].
    apply (proj2 (plain_text_echoed_unknown_ignored all_ok
                    (λ _, Dict join_room_event) two_tabs 1 "{}")
                 join_room_event); [reflexivity|exact H].
Defined.

(** C9, as the specification states it, fails on the code: user 1 has the
    connections 10 and 11; the frame "hi" received on connection 10 is not
    answered by a single [error] event on connection 10 (it is echoed as a
    ["message"] on both connections). *)
Lemma malformed_counterexample :
  ¬ spec_malformed all_ok no_json two_tabs 10 1 "hi".
Proof.
  intros H. destruct (H eq_refl) as (m & ok & E & _).
  apply (f_equal (λ r, length r.2)) in E. vm_compute in E. discriminate.
Qed.

Lemma endpoint_keeps_closed_connection_witness :
  (1 : Z) ≠ 0 ∧
  ∃ s' tr,
    websocket_endpoint all_fail no_json 10 1 [] (init false) =
      (Return (), s', tr) ∧
    live s' 1 = live (init false) 1 ++ [10%nat] ∧
    Forall (λ e, ¬ offline_transition 1 e) tr.
Proof.
  assert ((1 : Z) ≠ 0) as H by discriminate.
  split; [exact H|].
  exact (endpoint_keeps_closed_connection all_fail no_json (init false) 10 1 H).
Defined.

(** ** Further runs on concrete managers *)

Lemma broadcast_all_ok_keeps_state_witness :
  (∀ v ws, v ∈ present room_1_2 5 → excluded None v = false →
           ws ∈ live room_1_2 v → all_ok ws = true) ∧
  broadcast_to_chat all_ok 5 (NewMessage 5 1 "hello") None room_1_2 =
    (Return (), room_1_2,
     fan_out all_ok room_1_2 (NewMessage 5 1 "hello")
       (recipients room_1_2 5 None)).
Proof.
  assert (∀ v ws, v ∈ present room_1_2 5 → excluded None v = false →
                  ws ∈ live room_1_2 v → all_ok ws = true) as H.
  { intros v ws _ _ _. reflexivity. }
  split; [exact H|].
  exact (broadcast_all_ok_keeps_state all_ok room_1_2 5
           (NewMessage 5 1 "hello") None H).
Defined.

Lemma disconnect_unknown_socket_raises_witness :
  active_connections two_tabs !! 1 = Some [10%nat; 11%nat] ∧
  (99%nat ∉ [10%nat; 11%nat]) ∧
  disconnect all_ok 1 (Some 99%nat) two_tabs = (Raise ValueError, two_tabs, []).
Proof.
  assert (99%nat ∉ [10%nat; 11%nat]) as H.
  { rewrite !not_elem_of_cons. split; [discriminate|].
    split; [discriminate|]. apply not_elem_of_nil. }
  split; [reflexivity|]. split; [exact H|].
  exact (disconnect_unknown_socket_raises all_ok two_tabs 1 99
           [10%nat; 11%nat] eq_refl H).
Defined.

Lemma disconnect_last_goes_offline_witness :
  active_connections room_1_2 !! 1 = Some [10%nat] ∧
  remaining [10%nat] (Some 10%nat) = Some [] ∧
  ∃ s' tr,
    disconnect all_ok 1 (Some 10%nat) room_1_2 = (Return (), s', tr) ∧
    active_connections s' !! 1 = None ∧
    (redis room_1_2 = true → RedisStatus 1 false ∈ tr) ∧
    (∀ v ws, v ≠ 1 → ws ∈ live room_1_2 v →
             SendText ws (UserStatus 1 "offline") (all_ok ws) ∈ tr).
Proof.
  split; [reflexivity|]. split; [reflexivity|].
  exact (disconnect_last_goes_offline all_ok room_1_2 1 (Some 10%nat)
           [10%nat] eq_refl eq_refl).
Defined.

Lemma connect_disconnect_round_trip_witness :
  active_connections room_1_2 !! 7 = None ∧
  ∃ s' tr,
    (connect all_ok 70 7 >> disconnect all_ok 7 (Some 70%nat)) room_1_2 =
      (Return (), s', tr) ∧
    active_connections s' !! 7 = None ∧
    shrinks all_ok (active_connections room_1_2) (active_connections s') ∧
    ∀ c, present s' c = present room_1_2 c ∖ {[7]} ∧
         typing s' c = typing room_1_2 c ∖ {[7]}.
Proof.
  split; [reflexivity|].
  exact (connect_disconnect_round_trip all_ok room_1_2 70 7 eq_refl).
Defined.

Lemma frames_after_bad_frame_dropped_witness :
  scalar_json "42" = NotADict ∧
  websocket_endpoint all_ok scalar_json 10 1 (["a"] ++ "42" :: ["b"; "c"])
    (init false) =
  websocket_endpoint all_ok scalar_json 10 1 (["a"] ++ ["42"]) (init false).
Proof.
  split; [reflexivity|].
  exact (frames_after_bad_frame_dropped all_ok scalar_json (init false) 10 1
           ["a"] "42" ["b"; "c"] eq_refl).
Defined.

Lemma falsy_chat_id_ignored_witness :
  (truthy_int (chat_id (join_event 0)) = None ∧
   type_ (join_event 0) ≠ Some "typing" ∧
   handle_message all_ok 1 (join_event 0) room_1_2 = (Return (), room_1_2, [])) ∧
  (type_ (typing_event 0) = Some "typing" ∧
   chat_id (typing_event 0) = Some 0 ∧
   is_typing (typing_event 0) = Some true ∧
   1 ∈ typing (final (handle_message all_ok 1 (typing_event 0) room_1_2)) 0).
Proof.
  assert (type_ (join_event 0) ≠ Some "typing") as H by discriminate.
  split.
  - split; [reflexivity|]. split; [exact H|].
    exact (proj1 (falsy_chat_id_ignored all_ok room_1_2 1 (join_event 0))
             eq_refl H).
  - split; [reflexivity|]. split; [reflexivity|]. split; [reflexivity|].
    exact (proj2 (falsy_chat_id_ignored all_ok room_1_2 1 (typing_event 0))
             eq_refl eq_refl eq_refl).
Defined.

Lemma read_receipt_to_others_witness :
  (1 : Z) ≠ 0 ∧
  type_ (read_event 7 5) = Some "message_read" ∧
  truthy_int (message_id (read_event 7 5)) = Some 7 ∧
  truthy_int (chat_id (read_event 7 5)) = Some 5 ∧
  ∃ s',
    handle_message all_ok 1 (read_event 7 5) room_1_2 =
      (Return (), s',
       fan_out all_ok room_1_2 (MessageRead 7 5 1)
         (filter (λ v, v ≠ 1) (elements (present room_1_2 5)))) ∧
    chat_rooms s' = chat_rooms room_1_2 ∧
    typing_users s' = typing_users room_1_2.
Proof.
  assert ((1 : Z) ≠ 0) as H by discriminate.
  split; [exact H|]. split; [reflexivity|]. split; [reflexivity|].
  split; [reflexivity|].
  exact (read_receipt_to_others all_ok room_1_2 1 (read_event 7 5) 7 5 H
           eq_refl eq_refl eq_refl).
Defined.

Lemma lazy_removal_then_cleanup_goes_offline_witness :
  active_connections room_1_2 !! 1 = Some [10%nat] ∧
  (∀ ws, ws ∈ [10%nat] → all_fail ws = false) ∧
  ∃ s1 s2 tr,
    send_personal_message all_fail 1 (PlainText "hi" 1) room_1_2 =
      (Return (), s1, attempts all_fail (PlainText "hi" 1) [10%nat]) ∧
    active_connections s1 !! 1 = Some [] ∧
    disconnect all_fail 1 None s1 = (Return (), s2, tr) ∧
    active_connections s2 !! 1 = None ∧
    (redis room_1_2 = true → RedisStatus 1 false ∈ tr).
Proof.
  assert (∀ ws, ws ∈ [10%nat] → all_fail ws = false) as H.
  { intros ws _. reflexivity. }
  split; [reflexivity|]. split; [exact H|].
  exact (lazy_removal_then_cleanup_goes_offline all_fail room_1_2 1
           (PlainText "hi" 1) [10%nat] eq_refl H).
Defined.

(** ** The [send_message] route *)

Lemma find_None_all {A} (p : A → bool) (l : list A) :
  (∀ x, x ∈ l → p x = false) → find p l = None.
Proof.
  induction l as [|y l IH]; intros H; [done|]. cbn.
  rewrite (H y) by left. apply IH. intros x Hx. apply H. by right.
Qed.

Lemma find_is_Some_elem {A} (p : A → bool) (l : list A) x :
  x ∈ l → p x = true → is_Some (find p l).
Proof.
  induction l as [|y l IH]; intros Hx Hp; [by apply elem_of_nil in Hx|].
  cbn. destruct (p y) eqn:Hy; [by eexists|].
  apply elem_of_cons in Hx as [->|Hx]; [congruence|auto].
Qed.

Lemma touch_chat_absent chat now l :
  ¬ Exists (λ c, chat_pk c = chat) l → Messages.touch_chat chat now l = l.
Proof.
  induction l as [|c l IH]; intros H; [done|]. cbn.
  rewrite Exists_cons in H. rewrite decide_False by tauto.
  rewrite IH; [done|tauto].
Qed.

(** X16: a user for whom the membership table has no row of the chat that
    is both active and allowed to send is refused with status 403; nothing
    is stored and nothing is committed. *)
Theorem send_message_requires_sender_row
    new_id now commit_ok touch_ok message_data user db :
  (∀ row, row ∈ Messages.chat_members db →
          Messages.may_send (Messages.chat_id message_data) user row = false) →
  Messages.send_message new_id now commit_ok touch_ok message_data user db =
    (Raise (HTTPException 403), db, []).
Proof.
  intros H. unfold Messages.send_message, bind, get.
  by rewrite (find_None_all _ _ H).
Qed.

(** X17: a sender that may post but names a reply target (other than 0)
    that no undeleted message of the same chat has is refused with status
    404; nothing is stored. *)
Theorem send_message_bad_reply
    new_id now commit_ok touch_ok message_data user db row reply :
  row ∈ Messages.chat_members db →
  Messages.may_send (Messages.chat_id message_data) user row = true →
  truthy_int (Messages.reply_to_message_id message_data) = Some reply →
  (∀ target, target ∈ Messages.messages db →
     Messages.is_reply_target reply (Messages.chat_id message_data) target
       = false) →
  Messages.send_message new_id now commit_ok touch_ok message_data user db =
    (Raise (HTTPException 404), db, []).
Proof.
  intros Hrow Hmay Hreply Hnone. unfold Messages.send_message, bind, get.
  destruct (find_is_Some_elem _ _ _ Hrow Hmay) as [r ->].
  by rewrite Hreply, (find_None_all _ _ Hnone).
Qed.

Lemma send_message_checks_pass
    (message_data : Messages.MessageCreate) (user : Z) (db : Messages.Db) row :
  row ∈ Messages.chat_members db →
  Messages.may_send (Messages.chat_id message_data) user row = true →
  reply_accepted db message_data →
  is_Some (find (Messages.may_send (Messages.chat_id message_data) user)
                (Messages.chat_members db)) ∧
  match truthy_int (Messages.reply_to_message_id message_data) with
  | Some reply =>
      is_Some (find (Messages.is_reply_target reply
                       (Messages.chat_id message_data))
                    (Messages.messages db))
  | None => True
  end.
Proof.
  intros Hrow Hmay Hreply. split; [by eapply find_is_Some_elem|].
  destruct Hreply as [->|(reply & target & -> & Ht & Hok)]; [done|].
  by eapply find_is_Some_elem.
Qed.

(** X18: when the sender may post, the reply target passes and both
    commits succeed, the route returns the new row, which carries the key
    and the timestamp the database gave; the row is appended to the
    messages and committed, and the chat's [last_message_at] becomes its
    timestamp; the membership table is untouched. *)
Theorem send_message_stores new_id now message_data user db row :
  row ∈ Messages.chat_members db →
  Messages.may_send (Messages.chat_id message_data) user row = true →
  reply_accepted db message_data →
  Messages.send_message new_id now true true message_data user db =
    (Return (new_row new_id now message_data user),
     {| Messages.chat_members := Messages.chat_members db;
        Messages.messages :=
          Messages.messages db ++ [new_row new_id now message_data user];
        Messages.chats :=
          Messages.touch_chat (Messages.chat_id message_data) now
            (Messages.chats db) |},
     [DbCommit (new_row new_id now message_data user)]).
Proof.
  intros Hrow Hmay Hreply.
  destruct (send_message_checks_pass _ _ _ _ Hrow Hmay Hreply)
    as [[r Hr] Hcheck].
  unfold Messages.send_message, bind, get, modify, emit, ret, raise.
  rewrite Hr.
  destruct (truthy_int (Messages.reply_to_message_id message_data)) as [reply|];
    [destruct Hcheck as [t Ht]; rewrite Ht|];
    cbn; case_bool_decide as Hex; cbn; try done;
    by rewrite touch_chat_absent.
Qed.

(** X19: when the first commit fails, the route raises and nothing is
    stored. *)
Theorem send_message_commit_failure_stores_nothing
    new_id now touch_ok message_data user db row :
  row ∈ Messages.chat_members db →
  Messages.may_send (Messages.chat_id message_data) user row = true →
  reply_accepted db message_data →
  Messages.send_message new_id now false touch_ok message_data user db =
    (Raise SQLAlchemyError, db, []).
Proof.
  intros Hrow Hmay Hreply.
  destruct (send_message_checks_pass _ _ _ _ Hrow Hmay Hreply)
    as [[r Hr] Hcheck].
  unfold Messages.send_message, bind, get, modify, emit, ret, raise.
  rewrite Hr.
  destruct (truthy_int (Messages.reply_to_message_id message_data)) as [reply|];
    [destruct Hcheck as [t Ht]; rewrite Ht|]; done.
Qed.

(** X20: when the message is committed but the commit of the chat's
    [last_message_at] fails, the route raises although the message is
    stored: the row stays in the table and the chat row is not touched. *)
Theorem send_message_touch_failure_keeps_row
    new_id now message_data user db row chat :
  row ∈ Messages.chat_members db →
  Messages.may_send (Messages.chat_id message_data) user row = true →
  reply_accepted db message_data →
  chat ∈ Messages.chats db →
  chat_pk chat = Messages.chat_id message_data →
  Messages.send_message new_id now true false message_data user db =
    (Raise SQLAlchemyError,
     with_message db (new_row new_id now message_data user),
     [DbCommit (new_row new_id now message_data user)]).
Proof.
  intros Hrow Hmay Hreply Hchat Hpk.
  destruct (send_message_checks_pass _ _ _ _ Hrow Hmay Hreply)
    as [[r Hr] Hcheck].
  assert (Exists (λ c, chat_pk c = Messages.chat_id message_data)
            (Messages.chats db)) as Hex.
  { apply Exists_exists. by exists chat. }
  unfold Messages.send_message, bind, get, modify, emit, ret, raise.
  rewrite Hr.
  destruct (truthy_int (Messages.reply_to_message_id message_data)) as [reply|];
    [destruct Hcheck as [t Ht]; rewrite Ht|];
    cbn; by rewrite bool_decide_eq_true_2.
Qed.

Lemma send_message_requires_sender_row_witness :
  (∀ row, row ∈ Messages.chat_members only_2_in_5 →
          Messages.may_send (Messages.chat_id (post_in_5 None)) 9 row = false) ∧
  Messages.send_message 501 1000 true true (post_in_5 None) 9 only_2_in_5 =
    (Raise (HTTPException 403), only_2_in_5, []).
Proof.
  assert (∀ row, row ∈ Messages.chat_members only_2_in_5 →
            Messages.may_send (Messages.chat_id (post_in_5 None)) 9 row = false)
    as H.
  { intros row Hrow. apply list_elem_of_singleton in Hrow. by subst row. }
  split; [exact H|].
  exact (send_message_requires_sender_row 501 1000 true true (post_in_5 None)
           9 only_2_in_5 H).
Defined.

Lemma send_message_bad_reply_witness :
  Messages.send_message 501 1000 true true (post_in_5 (Some 77)) 2 only_2_in_5 =
    (Raise (HTTPException 404), only_2_in_5, []).
Proof.
  apply (send_message_bad_reply 501 1000 true true (post_in_5 (Some 77)) 2
           only_2_in_5
           {| member_chat_id := 5; member_user_id := 2; is_active := true;
              can_send_messages := true |} 77).
  - by apply list_elem_of_singleton.
  - reflexivity.
  - reflexivity.
  - intros target Ht. by apply elem_of_nil in Ht.
Defined.

Lemma send_message_stores_witness :
  Messages.send_message 501 1000 true true (post_in_5 None) 2 only_2_in_5 =
    (Return (new_row 501 1000 (post_in_5 None) 2),
     {| Messages.chat_members := Messages.chat_members only_2_in_5;
        Messages.messages := [new_row 501 1000 (post_in_5 None) 2];
        Messages.chats := [{| chat_pk := 5; last_message_at := Some 1000 |}] |},
     [DbCommit (new_row 501 1000 (post_in_5 None) 2)]).
Proof.
  apply (send_message_stores 501 1000 (post_in_5 None) 2 only_2_in_5
           {| member_chat_id := 5; member_user_id := 2; is_active := true;
              can_send_messages := true |}).
  - by apply list_elem_of_singleton.
  - reflexivity.
  - by left.
Defined.

Lemma send_message_commit_failure_stores_nothing_witness :
  Messages.send_message 501 1000 false true (post_in_5 None) 2 only_2_in_5 =
    (Raise SQLAlchemyError, only_2_in_5, []).
Proof.
  apply (send_message_commit_failure_stores_nothing 501 1000 true
           (post_in_5 None) 2 only_2_in_5
           {| member_chat_id := 5; member_user_id := 2; is_active := true;
              can_send_messages := true |}).
  - by apply list_elem_of_singleton.
  - reflexivity.
  - by left.
Defined.

Lemma send_message_touch_failure_keeps_row_witness :
  Messages.send_message 501 1000 true false (post_in_5 None) 2 only_2_in_5 =
    (Raise SQLAlchemyError,
     with_message only_2_in_5 (new_row 501 1000 (post_in_5 None) 2),
     [DbCommit (new_row 501 1000 (post_in_5 None) 2)]).
Proof.
  apply (send_message_touch_failure_keeps_row 501 1000 (post_in_5 None) 2
           only_2_in_5
           {| member_chat_id := 5; member_user_id := 2; is_active := true;
              can_send_messages := true |}
           {| chat_pk := 5; last_message_at := None |}).
  - by apply list_elem_of_singleton.
  - reflexivity.
  - by left.
  - by apply list_elem_of_singleton.
  - reflexivity.
Defined.

(** ** The other message routes *)

Section KeyedLists.

Context {A : Type} (key : A → Z).

(** In a table with a primary key, a query that fixes the key looks at the
    one row that has it. *)
Lemma find_keyed (p q : A → bool) k l m :
  (∀ x, p x = bool_decide (key x = k) && q x) →
  NoDup (key <$> l) → m ∈ l → key m = k →
  find p l = if q m then Some m else None.
Proof.
  intros Hp. induction l as [|y l IH]; intros Hnd Hm Hk.
  { by apply elem_of_nil in Hm. }
  rewrite fmap_cons in Hnd. apply NoDup_cons in Hnd as [Hy Hnd].
  cbn. rewrite Hp.
  apply elem_of_cons in Hm as [->|Hm].
  - rewrite bool_decide_eq_true_2 by done. cbn.
    destruct (q y); [done|]. apply find_None_all. intros x Hx. rewrite Hp.
    rewrite bool_decide_eq_false_2; [done|]. intros Hkx. apply Hy.
    rewrite Hk, <- Hkx. by apply list_elem_of_fmap_2.
  - rewrite bool_decide_eq_false_2; [by apply IH|]. intros Hky. apply Hy.
    rewrite Hky, <- Hk. by apply list_elem_of_fmap_2.
Qed.

Lemma update_first_keyed (p q : A → bool) (f : A → A) k l m :
  (∀ x, p x = bool_decide (key x = k) && q x) →
  NoDup (key <$> l) → m ∈ l → key m = k → q m = true →
  update_first p f l = (λ x, if decide (key x = k) then f x else x) <$> l.
Proof.
  intros Hp. induction l as [|y l IH]; intros Hnd Hm Hk Hq.
  { by apply elem_of_nil in Hm. }
  rewrite fmap_cons in Hnd. apply NoDup_cons in Hnd as [Hy Hnd].
  cbn. rewrite Hp.
  apply elem_of_cons in Hm as [->|Hm].
  - rewrite bool_decide_eq_true_2, Hq, decide_True by done. cbn. f_equal.
    symmetry. rewrite <- (list_fmap_id l) at 2.
    apply list_fmap_ext. intros i x Hx. rewrite decide_False; [done|].
    intros Hkx. apply Hy. rewrite Hk, <- Hkx.
    apply list_elem_of_fmap_2. by eapply list_elem_of_lookup_2.
  - assert (key y ≠ k) as Hne.
    { intros Hky. apply Hy. rewrite Hky, <- Hk. by apply list_elem_of_fmap_2. }
    rewrite bool_decide_eq_false_2, decide_False by done. cbn. f_equal.
    by apply IH.
Qed.

End KeyedLists.

Lemma owned_by_keyed key user x :
  MessageOps.owned_by key user x =
    bool_decide (MessageOps.id x = key) &&
    (bool_decide (MessageOps.sender_id x = user) &&
     negb (MessageOps.is_deleted x)).
Proof. unfold MessageOps.owned_by. by rewrite andb_assoc. Qed.

Lemma own_reaction_keyed rid key user x :
  MessageOps.own_reaction rid key user x =
    bool_decide (MessageOps.reaction_id x = rid) &&
    (bool_decide (MessageOps.message_id x = key) &&
     bool_decide (MessageOps.user_id x = user)).
Proof. unfold MessageOps.own_reaction. by rewrite andb_assoc. Qed.

Lemma find_visible db m key :
  MessageOps.unique_keys db → m ∈ MessageOps.messages db →
  MessageOps.id m = key →
  find (MessageOps.visible key) (MessageOps.messages db) =
    if MessageOps.is_deleted m then None else Some m.
Proof.
  intros [Hnd _] Hm Hk.
  rewrite (find_keyed MessageOps.id _ (λ x, negb (MessageOps.is_deleted x))
             key _ m); try done.
  by destruct (MessageOps.is_deleted m).
Qed.

Lemma find_owned_by db m key user :
  MessageOps.unique_keys db → m ∈ MessageOps.messages db →
  MessageOps.id m = key →
  find (MessageOps.owned_by key user) (MessageOps.messages db) =
    if bool_decide (MessageOps.sender_id m = user) &&
       negb (MessageOps.is_deleted m)
    then Some m else None.
Proof.
  intros [Hnd _] Hm Hk.
  by rewrite (find_keyed MessageOps.id _ _ key _ m (owned_by_keyed key user)).
Qed.

(** X21: a message can be edited by its sender only, and not once it is
    deleted: for anyone else, or on a deleted message, [edit_message]
    answers 404 and changes nothing. *)
Theorem edit_only_by_sender select_now commit_ok key text user db m :
  MessageOps.unique_keys db →
  m ∈ MessageOps.messages db →
  MessageOps.id m = key →
  MessageOps.sender_id m ≠ user ∨ MessageOps.is_deleted m = true →
  MessageOps.edit_message select_now commit_ok key text user db =
    (Raise (HTTPException 404), db, []).
Proof.
  intros Hu Hm Hk Hno. unfold MessageOps.edit_message, bind, get.
  rewrite (find_owned_by _ _ _ _ Hu Hm Hk).
  destruct Hno as [Hs| ->].
  - by rewrite bool_decide_eq_false_2.
  - by rewrite andb_false_r.
Qed.

(** X22: a successful edit by the sender changes the one message with that
    key and nothing else: the message gets the new content, is flagged
    edited and stamped; every other message, the members and the reactions
    are as before. *)
Theorem edit_changes_one_row now key text user db m :
  MessageOps.unique_keys db →
  m ∈ MessageOps.messages db →
  MessageOps.id m = key →
  MessageOps.sender_id m = user →
  MessageOps.is_deleted m = false →
  MessageOps.edit_message (Some now) true key text user db =
    (Return (),
     MessageOps.set_messages
       (fmap (λ x, if decide (MessageOps.id x = key)
                   then MessageOps.edited text now x else x)) db,
     []).
Proof.
  intros Hu Hm Hk Hs Hd. unfold MessageOps.edit_message, bind, get.
  rewrite (find_owned_by _ _ _ _ Hu Hm Hk).
  rewrite bool_decide_eq_true_2, Hd by done. cbn. unfold put.
  do 2 f_equal. unfold MessageOps.set_messages. f_equal.
  apply (update_first_keyed MessageOps.id _ _ _ key _ m
           (owned_by_keyed key user)); try done; [apply Hu|].
  by rewrite bool_decide_eq_true_2, Hd.
Qed.

(** X23: a deleted message is frozen: editing it, deleting it again,
    reacting to it and listing its reactions all answer 404, for every
    user, and change nothing. *)
Theorem deleted_message_is_frozen db m key :
  MessageOps.unique_keys db →
  m ∈ MessageOps.messages db →
  MessageOps.id m = key →
  MessageOps.is_deleted m = true →
  ∀ select_now commit_ok new_id user text emoji,
    MessageOps.edit_message select_now commit_ok key text user db =
      (Raise (HTTPException 404), db, []) ∧
    MessageOps.delete_message select_now commit_ok key user db =
      (Raise (HTTPException 404), db, []) ∧
    MessageOps.add_reaction commit_ok new_id key emoji user db =
      (Raise (HTTPException 404), db, []) ∧
    MessageOps.get_message_reactions key user db =
      (Raise (HTTPException 404), db, []).
Proof.
  intros Hu Hm Hk Hd select_now commit_ok new_id user text emoji.
  unfold MessageOps.edit_message, MessageOps.delete_message,
    MessageOps.add_reaction, MessageOps.get_message_reactions, bind, get.
  rewrite (find_owned_by _ _ _ _ Hu Hm Hk), (find_visible _ _ _ Hu Hm Hk), Hd.
  by rewrite andb_false_r.
Qed.

(** X24: deletion is soft. The sender of a message, or a user with a
    membership row of its chat that grants [can_delete_messages] (active or
    not), deletes it: the message stays in the table, flagged deleted and
    stamped, and nothing else changes, the reactions included. *)
Theorem delete_is_soft now key user db m :
  MessageOps.unique_keys db →
  m ∈ MessageOps.messages db →
  MessageOps.id m = key →
  MessageOps.is_deleted m = false →
  (MessageOps.sender_id m = user ∨
   ∃ row, row ∈ MessageOps.chat_members db ∧
          MessageOps.may_delete (MessageOps.chat_id m) user row = true) →
  MessageOps.delete_message (Some now) true key user db =
    (Return (),
     MessageOps.set_messages
       (fmap (λ x, if decide (MessageOps.id x = key)
                   then MessageOps.soft_deleted now x else x)) db,
     []).
Proof.
  intros Hu Hm Hk Hd Hcan. unfold MessageOps.delete_message, bind, get.
  rewrite (find_visible _ _ _ Hu Hm Hk), Hd. cbn zeta.
  assert ((if decide (MessageOps.sender_id m = user) then true
           else bool_decide (is_Some
                  (find (MessageOps.may_delete (MessageOps.chat_id m) user)
                        (MessageOps.chat_members db)))) = true) as ->.
  { destruct (decide (MessageOps.sender_id m = user)) as [|Hne]; [done|].
    destruct Hcan as [?|(row & Hrow & Hmay)]; [done|].
    apply bool_decide_eq_true_2. by eapply find_is_Some_elem. }
  unfold put. do 2 f_equal. unfold MessageOps.set_messages. f_equal.
  apply (update_first_keyed MessageOps.id _
           (λ x, negb (MessageOps.is_deleted x)) _ key _ m);
    try done; [apply Hu|by rewrite Hd].
Qed.

(** X25: a user that neither sent the message nor has a membership row of
    its chat granting [can_delete_messages] is refused with status 403, and
    nothing changes. *)
Theorem delete_forbidden select_now commit_ok key user db m :
  MessageOps.unique_keys db →
  m ∈ MessageOps.messages db →
  MessageOps.id m = key →
  MessageOps.is_deleted m = false →
  MessageOps.sender_id m ≠ user →
  (∀ row, row ∈ MessageOps.chat_members db →
          MessageOps.may_delete (MessageOps.chat_id m) user row = false) →
  MessageOps.delete_message select_now commit_ok key user db =
    (Raise (HTTPException 403), db, []).
Proof.
  intros Hu Hm Hk Hd Hs Hrows. unfold MessageOps.delete_message, bind, get.
  rewrite (find_visible _ _ _ Hu Hm Hk), Hd. cbn zeta.
  rewrite decide_False by done. rewrite (find_None_all _ _ Hrows).
  rewrite bool_decide_eq_false_2; [done|]. by intros [? ?].
Qed.

Lemma remove_first_last {A} (p : A → bool) (l : list A) x :
  (∀ y, y ∈ l → p y = false) → p x = true → remove_first p (l ++ [x]) = l.
Proof.
  intros Hl Hx. induction l as [|y l IH]; cbn.
  - by rewrite Hx.
  - rewrite (Hl y) by left. f_equal. apply IH. intros z Hz. apply Hl.
    by right.
Qed.

Lemma find_last {A} (p : A → bool) (l : list A) x :
  (∀ y, y ∈ l → p y = false) → p x = true → find p (l ++ [x]) = Some x.
Proof.
  intros Hl Hx. induction l as [|y l IH]; cbn.
  - by rewrite Hx.
  - rewrite (Hl y) by left. apply IH. intros z Hz. apply Hl. by right.
Qed.

(** X26: [add_reaction] is a toggle. For an active member of the chat of a
    message that is not deleted, who has not reacted with this emoji yet,
    the first call stores the reaction under the new key and the second
    call with the same emoji removes it again: the database is back to
    what it was. *)
Theorem reaction_toggle_round_trip new_id new_id' key emoji user db m row :
  MessageOps.unique_keys db →
  m ∈ MessageOps.messages db →
  MessageOps.id m = key →
  MessageOps.is_deleted m = false →
  row ∈ MessageOps.chat_members db →
  MessageOps.active_member (MessageOps.chat_id m) user row = true →
  (∀ r, r ∈ MessageOps.reactions db →
        MessageOps.same_reaction key user emoji r = false) →
  ∃ db1,
    MessageOps.add_reaction true new_id key emoji user db =
      (Return (MessageOps.ReactionAdded new_id emoji), db1, []) ∧
    MessageOps.reactions db1 =
      MessageOps.reactions db ++
        [{| MessageOps.reaction_id := new_id; MessageOps.message_id := key;
            MessageOps.user_id := user; MessageOps.reaction := emoji |}] ∧
    MessageOps.add_reaction true new_id' key emoji user db1 =
      (Return MessageOps.ReactionRemoved, db, []).
Proof.
  intros Hu Hm Hk Hd Hrow Hact Hnone.
  destruct (find_is_Some_elem _ _ _ Hrow Hact) as [r Hr].
  set (new := {| MessageOps.reaction_id := new_id; MessageOps.message_id := key;
                 MessageOps.user_id := user; MessageOps.reaction := emoji |}).
  assert (MessageOps.same_reaction key user emoji new = true) as Hnew.
  { unfold MessageOps.same_reaction. cbn.
    by rewrite !bool_decide_eq_true_2. }
  exists (MessageOps.set_reactions (λ l, l ++ [new]) db). split_and!.
  - unfold MessageOps.add_reaction, bind, get, put, ret.
    rewrite (find_visible _ _ _ Hu Hm Hk), Hd, Hr.
    by rewrite (find_None_all _ _ Hnone).
  - done.
  - unfold MessageOps.add_reaction, bind, get, put, ret. cbn.
    rewrite (find_visible _ _ _ Hu Hm Hk), Hd, Hr.
    rewrite (find_last _ _ _ Hnone Hnew). cbn.
    unfold MessageOps.set_reactions. cbn.
    rewrite (remove_first_last _ _ _ Hnone Hnew). by destruct db.
Qed.

(** X27: a reaction can be removed by the user who gave it, and under the
    message it belongs to, only: otherwise [remove_reaction] answers 404
    and changes nothing. *)
Theorem remove_reaction_only_own commit_ok key rid user db r :
  MessageOps.unique_keys db →
  r ∈ MessageOps.reactions db →
  MessageOps.reaction_id r = rid →
  MessageOps.user_id r ≠ user ∨ MessageOps.message_id r ≠ key →
  MessageOps.remove_reaction commit_ok key rid user db =
    (Raise (HTTPException 404), db, []).
Proof.
  intros [_ Hnd] Hr Hk Hno. unfold MessageOps.remove_reaction, bind, get.
  rewrite (find_keyed MessageOps.reaction_id _ _ rid _ r
             (own_reaction_keyed rid key user) Hnd Hr Hk).
  destruct Hno as [Hne|Hne].
  - rewrite (bool_decide_eq_false_2 (MessageOps.user_id r = user)) by done.
    by rewrite andb_false_r.
  - by rewrite (bool_decide_eq_false_2 (MessageOps.message_id r = key)).
Qed.

(** X28: reacting to a message and listing its reactions need an active
    membership row of its chat: without one the routes answer 403 and
    change nothing, for the sender of the message as for anyone else. *)
Theorem reactions_require_active_member commit_ok new_id key emoji user db m :
  MessageOps.unique_keys db →
  m ∈ MessageOps.messages db →
  MessageOps.id m = key →
  MessageOps.is_deleted m = false →
  (∀ row, row ∈ MessageOps.chat_members db →
          MessageOps.active_member (MessageOps.chat_id m) user row = false) →
  MessageOps.add_reaction commit_ok new_id key emoji user db =
    (Raise (HTTPException 403), db, []) ∧
  MessageOps.get_message_reactions key user db =
    (Raise (HTTPException 403), db, []).
Proof.
  intros Hu Hm Hk Hd Hrows.
  unfold MessageOps.add_reaction, MessageOps.get_message_reactions, bind, get.
  rewrite (find_visible _ _ _ Hu Hm Hk), Hd.
  by rewrite (find_None_all _ _ Hrows).
Qed.

(** ** Runs on a concrete database *)

Lemma sample_unique : MessageOps.unique_keys MessageOps.sample.
Proof. split; apply NoDup_singleton. Defined.

Lemma sample_deleted_unique : MessageOps.unique_keys MessageOps.sample_deleted.
Proof. split; apply NoDup_singleton. Defined.

Lemma sample_message_stored :
  MessageOps.sample_message ∈ MessageOps.messages MessageOps.sample.
Proof. by apply list_elem_of_singleton. Defined.

Lemma edit_only_by_sender_witness :
  MessageOps.edit_message (Some 1000) true 1 "bye" 3 MessageOps.sample =
    (Raise (HTTPException 404), MessageOps.sample, []).
Proof.
  apply (edit_only_by_sender (Some 1000) true 1 "bye" 3 MessageOps.sample
           MessageOps.sample_message sample_unique sample_message_stored
           eq_refl).
  left. discriminate.
Defined.

Lemma edit_changes_one_row_witness :
  MessageOps.edit_message (Some 1000) true 1 "bye" 2 MessageOps.sample =
    (Return (),
     MessageOps.set_messages
       (fmap (λ x, if decide (MessageOps.id x = 1)
                   then MessageOps.edited "bye" 1000 x else x))
       MessageOps.sample,
     []).
Proof.
  exact (edit_changes_one_row 1000 1 "bye" 2 MessageOps.sample
           MessageOps.sample_message sample_unique sample_message_stored
           eq_refl eq_refl eq_refl).
Defined.

Lemma deleted_message_is_frozen_witness :
  MessageOps.edit_message (Some 1000) true 1 "bye" 2 MessageOps.sample_deleted =
    (Raise (HTTPException 404), MessageOps.sample_deleted, []) ∧
  MessageOps.delete_message (Some 1000) true 1 2 MessageOps.sample_deleted =
    (Raise (HTTPException 404), MessageOps.sample_deleted, []) ∧
  MessageOps.add_reaction true 41 1 "+1" 2 MessageOps.sample_deleted =
    (Raise (HTTPException 404), MessageOps.sample_deleted, []) ∧
  MessageOps.get_message_reactions 1 2 MessageOps.sample_deleted =
    (Raise (HTTPException 404), MessageOps.sample_deleted, []).
Proof.
  apply (deleted_message_is_frozen MessageOps.sample_deleted
           (MessageOps.soft_deleted 900 MessageOps.sample_message) 1
           sample_deleted_unique).
  - by apply list_elem_of_singleton.
  - reflexivity.
  - reflexivity.
Defined.

Lemma delete_is_soft_witness :
  MessageOps.delete_message (Some 1000) true 1 3 MessageOps.sample =
    (Return (),
     MessageOps.set_messages
       (fmap (λ x, if decide (MessageOps.id x = 1)
                   then MessageOps.soft_deleted 1000 x else x))
       MessageOps.sample,
     []).
Proof.
  apply (delete_is_soft 1000 1 3 MessageOps.sample MessageOps.sample_message
           sample_unique sample_message_stored eq_refl eq_refl).
  right. exists MessageOps.sample_moderator. split; [|reflexivity].
  apply elem_of_cons. right. by apply list_elem_of_singleton.
Defined.

Lemma delete_forbidden_witness :
  MessageOps.delete_message (Some 1000) true 1 9 MessageOps.sample =
    (Raise (HTTPException 403), MessageOps.sample, []).
Proof.
  apply (delete_forbidden (Some 1000) true 1 9 MessageOps.sample
           MessageOps.sample_message sample_unique sample_message_stored
           eq_refl eq_refl).
  - discriminate.
  - intros row Hrow. apply elem_of_cons in Hrow as [->|Hrow]; [reflexivity|].
    apply list_elem_of_singleton in Hrow. by subst row.
Defined.

Lemma reaction_toggle_round_trip_witness :
  ∃ db1,
    MessageOps.add_reaction true 41 1 "heart" 2 MessageOps.sample =
      (Return (MessageOps.ReactionAdded 41 "heart"), db1, []) ∧
    MessageOps.reactions db1 =
      MessageOps.reactions MessageOps.sample ++
        [{| MessageOps.reaction_id := 41; MessageOps.message_id := 1;
            MessageOps.user_id := 2; MessageOps.reaction := "heart" |}] ∧
    MessageOps.add_reaction true 42 1 "heart" 2 db1 =
      (Return MessageOps.ReactionRemoved, MessageOps.sample, []).
Proof.
  apply (reaction_toggle_round_trip 41 42 1 "heart" 2 MessageOps.sample
           MessageOps.sample_message MessageOps.sample_member
           sample_unique sample_message_stored eq_refl eq_refl).
  - apply elem_of_cons. by left.
  - reflexivity.
  - intros r Hr. apply list_elem_of_singleton in Hr. by subst r.
Defined.

Lemma remove_reaction_only_own_witness :
  MessageOps.remove_reaction true 1 40 3 MessageOps.sample =
    (Raise (HTTPException 404), MessageOps.sample, []).
Proof.
  apply (remove_reaction_only_own true 1 40 3 MessageOps.sample
           MessageOps.sample_reaction sample_unique).
  - by apply list_elem_of_singleton.
  - reflexivity.
  - left. discriminate.
Defined.

Lemma reactions_require_active_member_witness :
  MessageOps.add_reaction true 41 1 "+1" 3 MessageOps.sample =
    (Raise (HTTPException 403), MessageOps.sample, []) ∧
  MessageOps.get_message_reactions 1 3 MessageOps.sample =
    (Raise (HTTPException 403), MessageOps.sample, []).
Proof.
  apply (reactions_require_active_member true 41 1 "+1" 3 MessageOps.sample
           MessageOps.sample_message sample_unique sample_message_stored
           eq_refl eq_refl).
  intros row Hrow. apply elem_of_cons in Hrow as [->|Hrow]; [reflexivity|].
  apply list_elem_of_singleton in Hrow. by subst row.
Defined.
